(** * ads.opctl.backend.ads_dataflow: the Data Flow backend of [ads opctl]

    A shallow embedding of [src/ads/opctl/backend/ads_dataflow.py] and the
    properties of its operations [apply], [run], [cancel], [delete] and
    [watch].

    The module is glue between a configuration dictionary and the Data Flow
    service.  The dictionary and the Python library functions that the
    module calls on it are modelled concretely; the service, the
    authentication context and [json.loads] are an interface the development
    is parametric in. *)

From Stdlib Require Import Ascii.
From stdpp Require Import gmap strings list fin_maps.

Local Open Scope string_scope.

(** ** Python values and the library functions the backend calls *)

Module Py.

(** The values a configuration holds: what a YAML or JSON document decodes
    to.  Dictionaries are keyed by strings. *)
#[warnings="-register-all"] Inductive pyval : Type :=
  | VNone
  | VBool (b : bool)
  | VInt (n : Z)
  | VStr (s : string)
  | VList (l : list pyval)
  | VDict (d : gmap string pyval).

(** Python's truth value testing, used by every [if x.get(...)]. *)
Definition truthy (v : pyval) : bool :=
  match v with
  | VNone => false
  | VBool b => b
  | VInt n => negb (n =? 0)%Z
  | VStr s => negb (String.eqb s EmptyString)
  | VList l => match l with [] => false | _ :: _ => true end
  | VDict d => negb (bool_decide (d = ∅))
  end.

(** [a or b]. *)
Definition py_or (a b : pyval) : pyval := if truthy a then a else b.

(** The exceptions that can leave the backend.  [ValueError] is the
    validation kind; [ServiceError] stands for whatever the service client
    raises, passed on unchanged. *)
Inductive exn : Type :=
  | ValueError (msg : string)
  | NotImplementedError (msg : string)
  | KeyError (key : string)
  | UnboundLocalError (name : string)
  | TypeError (msg : string)
  | AttributeError (msg : string)
  | JSONDecodeError (msg : string)
  | ServiceError (msg : string).

Definition result (A : Type) : Type := exn + A.

(** [k in d], [d.get(k, default)] and [d[k]]. *)
Definition contains (d : gmap string pyval) (k : string) : bool :=
  bool_decide (is_Some (d !! k)).

Definition dict_get (d : gmap string pyval) (k : string) (dflt : pyval) : pyval :=
  default dflt (d !! k).

Definition getitem (d : gmap string pyval) (k : string) : result pyval :=
  match d !! k with
  | Some v => inr v
  | None => inl (KeyError k)
  end.

(** [d.pop(k, default)]: the value and the dictionary without the key. *)
Definition dict_pop (d : gmap string pyval) (k : string) (dflt : pyval)
  : pyval * gmap string pyval :=
  (default dflt (d !! k), delete k d).

(** *** The same operations on a value of any type

    [infra] in [run] is whatever is stored under ["infrastructure"]: the
    operators and methods applied to it are those of its type. *)

(** [k in s] for a string [s]: a substring test. *)
Fixpoint is_substring (k s : string) : bool :=
  String.prefix k s
  || match s with
     | EmptyString => false
     | String _ rest => is_substring k rest
     end.

(** [x == k] for a string [k]: a string equals strings only. *)
Definition equals_str (k : string) (x : pyval) : bool :=
  match x with
  | VStr s => String.eqb s k
  | _ => false
  end.

(** [k in v]: a key of a dictionary, a substring of a string, an element of
    a list; [None], a truth value and a number raise [TypeError] (the
    message is CPython's, whose wording varies with the version). *)
Definition py_in (k : string) (v : pyval) : result bool :=
  match v with
  | VDict d => inr (contains d k)
  | VStr s => inr (is_substring k s)
  | VList l => inr (existsb (equals_str k) l)
  | VNone => inl (TypeError "argument of type 'NoneType' is not iterable")
  | VBool _ => inl (TypeError "argument of type 'bool' is not iterable")
  | VInt _ => inl (TypeError "argument of type 'int' is not iterable")
  end.

(** [any(k not in v for k in ks)]: stops at the first [k] that is not in
    [v]. *)
Fixpoint any_not_in (v : pyval) (ks : list string) : result bool :=
  match ks with
  | [] => inr false
  | k :: rest =>
      match py_in k v with
      | inl e => inl e
      | inr true => any_not_in v rest
      | inr false => inr true
      end
  end.

(** [[k for k in ks if k not in v]]. *)
Fixpoint those_not_in (v : pyval) (ks : list string) : result (list string) :=
  match ks with
  | [] => inr []
  | k :: rest =>
      match py_in k v with
      | inl e => inl e
      | inr present =>
          match those_not_in v rest with
          | inl e => inl e
          | inr missing => inr (if present then missing else k :: missing)
          end
      end
  end.

(** [v.pop(k)]: the value and what is left of [v]. *)
Definition py_pop (v : pyval) (k : string) : result (pyval * pyval) :=
  match v with
  | VDict d =>
      match d !! k with
      | Some x => inr (x, VDict (delete k d))
      | None => inl (KeyError k)
      end
  | VList _ => inl (TypeError "'str' object cannot be interpreted as an integer")
  | _ => inl (AttributeError "object has no attribute 'pop'")
  end.

(** [v.pop(k, default)]. *)
Definition py_pop_default (v : pyval) (k : string) (dflt : pyval)
  : result (pyval * pyval) :=
  match v with
  | VDict d => inr (default dflt (d !! k), VDict (delete k d))
  | VList _ => inl (TypeError "pop expected at most 1 argument, got 2")
  | _ => inl (AttributeError "object has no attribute 'pop'")
  end.

(** [v[k]]. *)
Definition py_getitem (v : pyval) (k : string) : result pyval :=
  match v with
  | VDict d => getitem d k
  | VStr _ => inl (TypeError "string indices must be integers")
  | VList _ => inl (TypeError "list indices must be integers or slices, not str")
  | _ => inl (TypeError "object is not subscriptable")
  end.

(** [v[k] = x]: what [v] is afterwards. *)
Definition py_setitem (v : pyval) (k : string) (x : pyval) : result pyval :=
  match v with
  | VDict d => inr (VDict (<[k := x]> d))
  | VList _ => inl (TypeError "list indices must be integers or slices, not str")
  | _ => inl (TypeError "object does not support item assignment")
  end.

(** *** [os.path.join] (posixpath) of two components

<<
    path = a
    for b in p:
        if b.startswith(sep):            path = b
        elif not path or path.endswith(sep): path += b
        else:                            path += sep + b
>> *)
Definition startswith_sep (s : string) : bool :=
  match s with
  | String c _ => Ascii.eqb c "/"%char
  | EmptyString => false
  end.

Fixpoint endswith_sep (s : string) : bool :=
  match s with
  | EmptyString => false
  | String c EmptyString => Ascii.eqb c "/"%char
  | String _ rest => endswith_sep rest
  end.

Definition posix_join (a b : string) : string :=
  if startswith_sep b then b
  else if String.eqb a EmptyString || endswith_sep a then a ++ b
  else a ++ "/" ++ b.

Definition os_path_join (a b : pyval) : result pyval :=
  match a, b with
  | VStr a, VStr b => inr (VStr (posix_join a b))
  | _, _ => inl (TypeError "expected str, bytes or os.PathLike object")
  end.

(** *** [shlex.split(s)]: POSIX mode, [whitespace_split] on, no commenters

    The tokenizer of [shlex.read_token], one character at a time.  The
    states are [' '] (between tokens), ['a'] (inside a word), a quote
    character, and the escape character; [escapedstate] is the state an
    escape returns to. *)
Inductive lexstate : Type :=
  | InSpace
  | InWord
  | InQuote (q : ascii)
  | InEscape (e : ascii).

Definition is_whitespace (c : ascii) : bool :=
  Ascii.eqb c " "%char || Ascii.eqb c "009"%char
  || Ascii.eqb c "013"%char || Ascii.eqb c "010"%char.

Definition is_quote (c : ascii) : bool :=
  Ascii.eqb c "'"%char || Ascii.eqb c "034"%char.

Definition is_escape (c : ascii) : bool := Ascii.eqb c "\"%char.

(** [escapedquotes] is the double quote alone. *)
Definition is_escapedquote (c : ascii) : bool := Ascii.eqb c "034"%char.

Definition snoc (tok : string) (c : ascii) : string := tok ++ String c EmptyString.

(** What [read_token] hands back at a [break]: [None] (end of input for the
    iterator) when the token is empty and nothing was quoted. *)
Definition token_result (quoted : bool) (tok : string) : option string :=
  if negb quoted && String.eqb tok EmptyString then None else Some tok.

Definition state_is_quote (st : lexstate) : option ascii :=
  match st with InQuote q => Some q | _ => None end.

Definition cons_token (t : string) (r : result (list string)) : result (list string) :=
  match r with
  | inl e => inl e
  | inr ts => inr (t :: ts)
  end.

(** [lex st esc quoted tok s]: the list [shlex.split] builds from the rest
    [s] of the input, with the lexer in state [st], [escapedstate] at
    [esc], the flag [quoted] and the pending token [tok].  At a [break] the
    token goes to the list, unless [read_token] returns [None], which ends
    the iteration; the next [read_token] starts with [quoted],
    [escapedstate] and the token reset.  In POSIX mode with
    [whitespace_split] every character that is not whitespace, a quote or
    the escape takes the branch of a word character. *)
Fixpoint lex (st esc : lexstate) (quoted : bool) (tok : string) (s : string)
  : result (list string) :=
  match s with
  | EmptyString =>
      match st with
      | InSpace | InWord =>
          match token_result quoted tok with
          | None => inr []
          | Some t => inr [t]
          end
      | InQuote _ => inl (ValueError "No closing quotation")
      | InEscape _ => inl (ValueError "No escaped character")
      end
  | String c rest =>
      match st with
      | InSpace =>
          if is_whitespace c then
            if negb (String.eqb tok EmptyString) || quoted then
              match token_result quoted tok with
              | None => inr []
              | Some t => cons_token t (lex InSpace InSpace false EmptyString rest)
              end
            else lex InSpace esc quoted tok rest
          else if is_escape c then lex (InEscape c) InWord quoted tok rest
          else if is_quote c then lex (InQuote c) esc quoted tok rest
          else lex InWord esc quoted (String c EmptyString) rest
      | InQuote q =>
          if Ascii.eqb c q then lex InWord esc true tok rest
          else if is_escape c && is_escapedquote q
          then lex (InEscape c) (InQuote q) true tok rest
          else lex (InQuote q) esc true (snoc tok c) rest
      | InEscape e =>
          let tok1 :=
            match state_is_quote esc with
            | Some q =>
                if negb (Ascii.eqb c e) && negb (Ascii.eqb c q)
                then snoc tok e else tok
            | None => tok
            end in
          lex esc esc quoted (snoc tok1 c) rest
      | InWord =>
          if is_whitespace c then
            if negb (String.eqb tok EmptyString) || quoted then
              match token_result quoted tok with
              | None => inr []
              | Some t => cons_token t (lex InSpace InSpace false EmptyString rest)
              end
            else lex InSpace esc quoted tok rest
          else if is_quote c then lex (InQuote c) esc quoted tok rest
          else if is_escape c then lex (InEscape c) InWord quoted tok rest
          else lex InWord esc quoted (snoc tok c) rest
      end
  end.

(** [shlex.split] of a configuration value; a truthy value that is not a
    string has no [read] method. *)
Definition shlex_split (v : pyval) : result pyval :=
  match v with
  | VStr s =>
      match lex InSpace InSpace false EmptyString s with
      | inl e => inl e
      | inr ts => inr (VList (VStr <$> ts))
      end
  | _ => inl (AttributeError "object has no attribute 'read'")
  end.

(** [repr] of a list of plain identifiers, as an f-string prints it:
    ['a', 'b']. *)
Definition repr_str (s : string) : string := "'" ++ s ++ "'".

Definition repr_list (l : list string) : string :=
  "[" ++ String.concat ", " (repr_str <$> l) ++ "]".

End Py.


Import Py.

(** ** The backend *)

(** The configuration: a dictionary with the [execution] section, which
    [__init__] already subscripts, and whatever is stored under
    ["infrastructure"], if the key is there
    ([config.get("infrastructure", {})]): a dictionary, or [None] for a
    section left empty, or any other value. *)
Record Config : Type := {
  execution : gmap string pyval;
  infrastructure_value : option pyval;
}.

(** The infrastructure section, when the key is there and holds a
    dictionary. *)
Definition infrastructure (cfg : Config) : option (gmap string pyval) :=
  match infrastructure_value cfg with
  | Some (VDict d) => Some d
  | _ => None
  end.

Definition REQUIRED_FIELDS : list string :=
  [ "compartment_id";
    "driver_shape";
    "executor_shape";
    "logs_bucket_uri";
    "script_bucket" ].

(** The objects of [ads.jobs] that [run] builds: plain holders of what
    they are given, the dictionary [rt_spec] and the object [infra]. *)
Record DataFlowRuntime : Type := { rt_spec : gmap string pyval }.
Record DataFlow : Type := { spec : pyval }.

(** The specification of a [DataFlow], when it is a dictionary. *)
Definition df_spec (df : DataFlow) : gmap string pyval :=
  match spec df with
  | VDict d => d
  | _ => ∅
  end.
Record Job : Type := {
  job_infrastructure : DataFlow;
  job_runtime : DataFlowRuntime;
}.

(** What the backend runs against: the Data Flow service behind [ads.jobs],
    the ambient credentials that [AuthContext] switches, the signer and
    client factories of [__init__], the template writer behind [init], and
    [json.loads].  A call on the service answers with a value or an
    exception and moves the world on. *)
Record Environment : Type := {
  world : Type;
  job_t : Type;
  run_t : Type;
  signer_t : Type;
  client_t : Type;
  create_signer : pyval -> pyval -> pyval -> result signer_t;
  dataflow_client : signer_t -> result client_t;
  auth_enter : pyval -> pyval -> world -> world;
  auth_exit : world -> world;
  from_dataflow_job : pyval -> world -> result job_t * world;
  job_create : Job -> pyval -> world -> result job_t * world;
  job_id : job_t -> string;
  job_run : job_t -> world -> result run_t * world;
  job_delete : job_t -> world -> result unit * world;
  from_ocid : pyval -> world -> result run_t * world;
  run_id : run_t -> string;
  run_delete : run_t -> world -> result unit * world;
  run_watch : run_t -> world -> result unit * world;
  default_runtime_type : pyval;
  job_template :
    gmap string pyval -> pyval -> pyval -> pyval -> gmap string pyval ->
    world -> result pyval * world;
  json_loads : pyval -> result pyval;
}.

Section Backend.

Variable E : Environment.

(** Everything an operation does that is visible from outside, in order. *)
Inductive event : Type :=
  | EAuthEnter (auth profile : pyval)
  | EAuthExit
  | EJobLookup (ocid : pyval)
  | EJobCreate (job : Job) (overwrite : pyval)
  | EJobRun (j : job_t E)
  | EJobDelete (j : job_t E)
  | ERunLookup (ocid : pyval)
  | ERunDelete (r : run_t E)
  | ERunWatch (r : run_t E)
  | ETemplate (infra : gmap string pyval) (key uri overwrite : pyval)
      (kwargs : gmap string pyval)
  | EPrint (line : string).

(** The calls that reach the service. *)
Definition is_provider_call (e : event) : bool :=
  match e with
  | EJobLookup _ | EJobCreate _ _ | EJobRun _ | EJobDelete _
  | ERunLookup _ | ERunDelete _ | ERunWatch _ => true
  | EAuthEnter _ _ | EAuthExit | ETemplate _ _ _ _ _ | EPrint _ => false
  end.

Definition is_create_or_submit (e : event) : bool :=
  match e with
  | EJobCreate _ _ | EJobRun _ => true
  | _ => false
  end.

Definition is_print (e : event) : bool :=
  match e with
  | EPrint _ => true
  | _ => false
  end.

Definition provider_calls (tr : list event) : list event :=
  List.filter is_provider_call tr.

(** The fields [__init__] sets. *)
Record DataFlowBackend : Type := {
  config : Config;
  oci_auth : signer_t E;
  auth_type : pyval;
  profile : pyval;
  client : client_t E;
}.

Definition DataFlowBackend_init (cfg : Config) : result DataFlowBackend :=
  match create_signer E (dict_get (execution cfg) "auth" VNone)
          (dict_get (execution cfg) "oci_config" VNone)
          (dict_get (execution cfg) "oci_profile" VNone) with
  | inl e => inl e
  | inr signer =>
      match dataflow_client E signer with
      | inl e => inl e
      | inr cl =>
          inr {| config := cfg;
                 oci_auth := signer;
                 auth_type := dict_get (execution cfg) "auth" VNone;
                 profile := dict_get (execution cfg) "oci_profile" VNone;
                 client := cl |}
      end
  end.

(** The state an operation runs in: the backend object, whose configuration
    dictionary is mutable, the world outside, and the events so far. *)
Record state : Type := {
  self : DataFlowBackend;
  outside : world E;
  trace : list event;
}.

(** Computations that read and write the state and may raise.  What was
    written before an exception stays written. *)
Definition M (A : Type) : Type := state -> result A * state.

#[global] Instance M_ret : MRet M := fun A (a : A) s => (inr a, s).

#[global] Instance M_bind : MBind M := fun A B (k : A -> M B) (m : M A) s =>
  match m s with
  | (inl e, s') => (inl e, s')
  | (inr a, s') => k a s'
  end.

Definition raise {A : Type} (e : exn) : M A := fun s => (inl e, s).

Definition lift {A : Type} (r : result A) : M A := fun s => (r, s).

Definition get_config : M Config := fun s => (inr (config (self s)), s).

Definition log (e : event) : M unit := fun s =>
  (inr tt, {| self := self s; outside := outside s; trace := trace s ++ [e] |}).

Definition call {A : Type} (e : event) (f : world E -> result A * world E) : M A :=
  fun s =>
    let '(r, w) := f (outside s) in
    (r, {| self := self s; outside := w; trace := trace s ++ [e] |}).

(** [self.config["infrastructure"]] is the object that [infra] names: a
    write through [infra] is a write to the configuration. *)
Definition with_infrastructure_value (b : DataFlowBackend) (v : pyval)
  : DataFlowBackend :=
  {| config := {| execution := execution (config b);
                  infrastructure_value := Some v |};
     oci_auth := oci_auth b;
     auth_type := auth_type b;
     profile := profile b;
     client := client b |}.

Definition with_infrastructure (b : DataFlowBackend) (d : gmap string pyval)
  : DataFlowBackend :=
  with_infrastructure_value b (VDict d).

Definition write_infra (aliased : bool) (v : pyval) : M unit := fun s =>
  if aliased
  then (inr tt, {| self := with_infrastructure_value (self s) v;
                   outside := outside s; trace := trace s |})
  else (inr tt, s).

(** [self.config["execution"].get(k, dflt)] and [self.config["execution"][k]]. *)
Definition execution_get (k : string) (dflt : pyval) : M pyval :=
  cfg ← get_config; mret (dict_get (execution cfg) k dflt).

Definition execution_item (k : string) : M pyval :=
  cfg ← get_config; lift (getitem (execution cfg) k).

(** [with AuthContext(auth=self.auth_type, profile=self.profile): body]:
    entered before the body, left on every way out of it. *)
Definition with_auth {A : Type} (body : M A) : M A := fun s =>
  let auth := auth_type (self s) in
  let prof := profile (self s) in
  let '(r, s') :=
    body {| self := self s;
            outside := auth_enter E auth prof (outside s);
            trace := trace s ++ [EAuthEnter auth prof] |} in
  (r, {| self := self s';
         outside := auth_exit E (outside s');
         trace := trace s' ++ [EAuthExit] |}).

(** Reading a local variable that no executed statement has bound. *)
Definition read_local {A : Type} (name : string) (v : option A) : M A :=
  match v with
  | Some a => mret a
  | None => raise (UnboundLocalError name)
  end.

Definition print (label value : string) : M unit :=
  log (EPrint (label ++ " " ++ value)).

Definition missing_fields (infra : gmap string pyval) : list string :=
  List.filter (fun k => negb (contains infra k)) REQUIRED_FIELDS.

Definition missing_message (missing : list string) : string :=
  "Following fields are missing but are required for OCI DataFlow Jobs: "
  ++ repr_list missing ++ ". Please run `ads opctl configure`.".

(** *** [init]

    The template is built by [ads.jobs] from the runtime type and the
    entries of the infrastructure section, which are handed over as keyword
    arguments: the callee gets a dictionary of its own.  What is stored
    goes through [or {}] first, and must then be a mapping. *)
Definition init (uri overwrite runtime_type : pyval) (kwargs : gmap string pyval)
  : M pyval :=
  with_auth (
    cfg ← get_config;
    let stored := default (VDict ∅) (infrastructure_value cfg) in
    let key := py_or runtime_type (default_runtime_type E) in
    match py_or stored (VDict ∅) with
    | VDict infra =>
        call (ETemplate infra key uri overwrite kwargs)
             (job_template E infra key uri overwrite kwargs)
    | _ => raise (TypeError "argument after ** must be a mapping")
    end).

(** *** [apply] *)
Definition apply : M unit :=
  raise (NotImplementedError "`apply` hasn't been supported for data flow yet.").

(** *** [run]

    The two branches leave the local variables [job_id] and [run_id] for
    the statements after the [with] block.  The branch for an existing
    application binds [data_flow_id] and [run_id]. *)
Definition run_existing : M (option string * string) :=
  data_flow_id ← execution_item "ocid";
  j ← call (EJobLookup data_flow_id) (from_dataflow_job E data_flow_id);
  r ← call (EJobRun j) (job_run E j);
  mret (None, run_id E r).

Definition run_new : M (option string * string) :=
  cfg ← get_config;
  let infra := default (VDict ∅) (infrastructure_value cfg) in
  let aliased :=
    match infrastructure_value cfg with Some _ => true | None => false end in
  missing_any ← lift (any_not_in infra REQUIRED_FIELDS);
  if (missing_any : bool) then
    missing ← lift (those_not_in infra REQUIRED_FIELDS);
    raise (ValueError (missing_message missing))
  else
    source_folder ← execution_item "source_folder";
    entrypoint ← execution_item "entrypoint";
    path ← lift (os_path_join source_folder entrypoint);
    let rt0 : gmap string pyval := <["scriptPathURI" := path]> ∅ in
    has_bucket ← lift (py_in "script_bucket" infra);
    '(rt1, infra1) ←
      (if (has_bucket : bool) then
         popped ← lift (py_pop infra "script_bucket");
         write_infra aliased popped.2;;
         mret (<["scriptBucket" := popped.1]> rt0, popped.2)
       else mret (rt0, infra));
    command ← execution_get "command" VNone;
    rt2 ←
      (if truthy command then
         c ← execution_item "command";
         args ← lift (shlex_split c);
         mret (<["args" := args]> rt1)
       else mret rt1);
    archive ← execution_get "archive" VNone;
    '(rt3, infra2) ←
      (if truthy archive then
         uri ← execution_item "archive";
         popped ← lift (py_pop_default infra1 "archive_bucket" VNone);
         write_infra aliased popped.2;;
         mret (<["archiveBucket" := popped.1]> (<["archiveUri" := uri]> rt2),
               popped.2)
       else mret (rt2, infra1));
    let rt := {| rt_spec := rt3 |} in
    has_configuration ← lift (py_in "configuration" infra2);
    infra3 ←
      (if (has_configuration : bool) then
         text ← lift (py_getitem infra2 "configuration");
         parsed ← lift (json_loads E text);
         updated ← lift (py_setitem infra2 "configuration" parsed);
         write_infra aliased updated;;
         mret updated
       else mret infra2);
    let df := {| job_infrastructure := {| spec := infra3 |};
                 job_runtime := rt |} in
    overwrite ← execution_get "overwrite" (VBool false);
    j ← call (EJobCreate df overwrite) (job_create E df overwrite);
    r ← call (EJobRun j) (job_run E j);
    mret (Some (job_id E j), run_id E r).

Definition run : M (gmap string string) :=
  '(job_id_var, run_id_var) ←
    with_auth (
      ocid ← execution_get "ocid" VNone;
      if truthy ocid then run_existing else run_new);
  jid ← read_local "job_id" job_id_var;
  print "DataFlow App ID:" jid;;
  print "DataFlow Run ID:" run_id_var;;
  mret ({[ "job_id" := jid; "run_id" := run_id_var ]} : gmap string string).

(** *** [cancel] *)
Definition cancel : M unit :=
  given ← execution_get "run_id" VNone;
  if negb (truthy given) then raise (ValueError "Can only cancel a DataFlow run.")
  else
    rid ← execution_item "run_id";
    with_auth (
      r ← call (ERunLookup rid) (from_ocid E rid);
      call (ERunDelete r) (run_delete E r)).

(** *** [delete] *)
Definition delete : M unit :=
  id ← execution_get "id" VNone;
  if truthy id then
    data_flow_id ← execution_item "id";
    with_auth (
      j ← call (EJobLookup data_flow_id) (from_dataflow_job E data_flow_id);
      call (EJobDelete j) (job_delete E j))
  else
    given ← execution_get "run_id" VNone;
    if truthy given then
      rid ← execution_item "run_id";
      with_auth (
        r ← call (ERunLookup rid) (from_ocid E rid);
        call (ERunDelete r) (run_delete E r))
    else mret tt.

(** *** [watch] *)
Definition watch : M unit :=
  rid ← execution_item "run_id";
  with_auth (
    r ← call (ERunLookup rid) (from_ocid E rid);
    call (ERunWatch r) (run_watch E r)).

(** An operation started on a backend, in a world, with nothing logged. *)
Definition start (b : DataFlowBackend) (w : world E) : state :=
  {| self := b; outside := w; trace := [] |}.

End Backend.

Arguments EAuthEnter {E}.
Arguments EAuthExit {E}.
Arguments EJobLookup {E}.
Arguments EJobCreate {E}.
Arguments EJobRun {E}.
Arguments EJobDelete {E}.
Arguments ERunLookup {E}.
Arguments ERunDelete {E}.
Arguments ERunWatch {E}.
Arguments ETemplate {E}.
Arguments EPrint {E}.
Arguments config {E}.
Arguments auth_type {E}.
Arguments profile {E}.
Arguments self {E}.
Arguments outside {E}.
Arguments trace {E}.
Arguments provider_calls {E}.
Arguments is_provider_call {E}.
Arguments is_create_or_submit {E}.
Arguments is_print {E}.
Arguments start {E}.

(** ** An in-memory service

    A small environment to run the operations in: applications and runs are
    kept in lists and named by their position, the credentials in force
    form a stack.  Its decoder knows the literal names of JSON and the
    empty object, which is all the closed instances below put to it. *)
Module Mem.

Record mem : Type := {
  apps : list string;
  runs : list string;
  created : nat;
  credentials : list (pyval * pyval);
}.

Definition with_apps (f : list string -> list string) (n : nat) (w : mem) : mem :=
  {| apps := f (apps w); runs := runs w; created := created w + n;
     credentials := credentials w |}.

Definition with_runs (f : list string -> list string) (n : nat) (w : mem) : mem :=
  {| apps := apps w; runs := f (runs w); created := created w + n;
     credentials := credentials w |}.

Definition not_found : exn := ServiceError "NotAuthorizedOrNotFound".

Definition find (known : mem -> list string) (v : pyval) (w : mem)
  : result string * mem :=
  match v with
  | VStr id => if bool_decide (id ∈ known w) then (inr id, w) else (inl not_found, w)
  | _ => (inl not_found, w)
  end.

Definition fresh (prefix : string) (w : mem) : string :=
  prefix ++ String.concat EmptyString (replicate (created w) "i").

Definition literal_decoder (v : pyval) : result pyval :=
  match v with
  | VStr s =>
      if String.eqb s "null" then inr VNone
      else if String.eqb s "true" then inr (VBool true)
      else if String.eqb s "false" then inr (VBool false)
      else if String.eqb s "{}" then inr (VDict ∅)
      else inl (JSONDecodeError "Expecting value")
  | _ => inl (TypeError "the JSON object must be str, bytes or bytearray")
  end.

Definition env : Environment :=
  {| world := mem;
     job_t := string;
     run_t := string;
     signer_t := unit;
     client_t := unit;
     create_signer := fun _ _ _ => inr tt;
     dataflow_client := fun _ => inr tt;
     auth_enter := fun a p w =>
       {| apps := apps w; runs := runs w; created := created w;
          credentials := (a, p) :: credentials w |};
     auth_exit := fun w =>
       {| apps := apps w; runs := runs w; created := created w;
          credentials := tail (credentials w) |};
     from_dataflow_job := find apps;
     job_create := fun _ _ w =>
       (inr (fresh "app-" w), with_apps (fun l => (l ++ [fresh "app-" w])%list) 1 w);
     job_id := fun j => j;
     job_run := fun j w =>
       (inr (fresh "run-" w), with_runs (fun l => (l ++ [fresh "run-" w])%list) 1 w);
     job_delete := fun j w =>
       (inr tt, with_apps (List.filter (fun a => negb (String.eqb a j))) 0 w);
     from_ocid := find runs;
     run_id := fun r => r;
     run_delete := fun r w =>
       (inr tt, with_runs (List.filter (fun a => negb (String.eqb a r))) 0 w);
     run_watch := fun _ w => (inr tt, w);
     default_runtime_type := VStr "dataFlow";
     job_template := fun _ _ uri _ _ w =>
       (inr (if truthy uri then VNone else VStr "kind: job"), w);
     json_loads := literal_decoder |}.

Definition empty : mem :=
  {| apps := []; runs := []; created := 0; credentials := [] |}.

Definition one_app : mem :=
  {| apps := ["app-0"]; runs := ["run-0"]; created := 0; credentials := [] |}.

Definition backend (cfg : Config) : DataFlowBackend env :=
  Build_DataFlowBackend env cfg tt
    (dict_get (execution cfg) "auth" VNone)
    (dict_get (execution cfg) "oci_profile" VNone) tt.

End Mem.

(** ** Properties of the operations *)

Section Properties.

Variable E : Environment.

Implicit Types (b : DataFlowBackend E) (w : world E) (s : state E).

(** The state an operation leaves when all it did was enter and leave the
    authentication context around the events [evs]. *)
Definition after_auth b (w' : world E) (evs : list (event E)) : state E :=
  {| self := b;
     outside := auth_exit E w';
     trace := [EAuthEnter (auth_type b) (profile b)] ++ evs ++ [EAuthExit] |}.

Definition entered b w : world E := auth_enter E (auth_type b) (profile b) w.

Lemma dict_get_truthy (d : gmap string pyval) (k : string) :
  truthy (dict_get d k VNone) = true ->
  exists v, d !! k = Some v /\ truthy v = true.
Proof.
  unfold dict_get. destruct (d !! k) as [v|]; simpl; [eauto | discriminate].
Qed.

Lemma dict_get_absent (d : gmap string pyval) (k : string) (dflt : pyval) :
  d !! k = None -> dict_get d k dflt = dflt.
Proof. unfold dict_get. now intros ->. Qed.

Lemma dict_get_present (d : gmap string pyval) (k : string) (dflt v : pyval) :
  d !! k = Some v -> dict_get d k dflt = v.
Proof. unfold dict_get. now intros ->. Qed.

(** What [run] computes on a dictionary. *)
Lemma infrastructure_Some (cfg : Config) (d : gmap string pyval) :
  infrastructure cfg = Some d -> infrastructure_value cfg = Some (VDict d).
Proof.
  unfold infrastructure. destruct (infrastructure_value cfg) as [[]|];
    intros H; try discriminate H. injection H as ->. reflexivity.
Qed.

Lemma any_not_in_dict (d : gmap string pyval) (ks : list string) :
  any_not_in (VDict d) ks = inr (existsb (fun k => negb (contains d k)) ks).
Proof.
  induction ks as [|k ks IH]; [reflexivity|]. cbn [any_not_in py_in existsb].
  destruct (contains d k); [exact IH | reflexivity].
Qed.

Lemma those_not_in_dict (d : gmap string pyval) (ks : list string) :
  those_not_in (VDict d) ks
  = inr (List.filter (fun k => negb (contains d k)) ks).
Proof.
  induction ks as [|k ks IH]; [reflexivity|].
  cbn [those_not_in py_in List.filter]. rewrite IH.
  destruct (contains d k); reflexivity.
Qed.

Ltac unfold_ops :=
  cbv beta iota zeta delta
    [ run run_existing run_new cancel delete watch apply init
      mbind mret M_bind M_ret raise lift get_config log call write_infra
      execution_get execution_item with_auth read_local print start
      after_auth entered self outside trace ].

Ltac crunch :=
  repeat (progress (cbv beta iota zeta;
                    cbn [with_infrastructure with_infrastructure_value
                         config execution infrastructure_value
                         auth_type profile oci_auth client fst snd
                         py_in py_pop py_pop_default py_getitem py_setitem];
                    rewrite ?any_not_in_dict, ?those_not_in_dict)).

(** In the configuration of [b], what is stored under ["infrastructure"],
    if anything, is a dictionary. *)
Definition holds_dict_or_nothing (cfg : Config) : Prop :=
  infrastructure_value cfg = VDict <$> infrastructure cfg.

Lemma stored_dict (cfg : Config) :
  holds_dict_or_nothing cfg ->
  default (VDict ∅) (infrastructure_value cfg)
  = VDict (default ∅ (infrastructure cfg)).
Proof.
  unfold holds_dict_or_nothing. intros ->.
  destruct (infrastructure cfg); reflexivity.
Qed.

(** Closes a goal whose hypothesis [H] puts an event in a list of events of
    other kinds. *)
Ltac absent_event H :=
  simpl in H;
  repeat (apply elem_of_cons in H as [H|H]; [discriminate H|]);
  apply elem_of_nil in H; exact H.

(** C8: [apply] raises [NotImplementedError] in every state, whatever the
    configuration holds, and leaves the state as it found it: no event, no
    change of the world. *)
Theorem apply_not_implemented s :
  apply E s
  = (inl (NotImplementedError "`apply` hasn't been supported for data flow yet."), s).
Proof. reflexivity. Qed.

(** C3 (as the code has it): when [execution.run_id] is absent, [cancel]
    raises [ValueError] and [watch] raises [KeyError] on ['run_id']; neither
    makes a call to the service, or any other event. *)
Theorem cancel_watch_absent_run_id b w :
  execution (config b) !! "run_id" = None ->
  cancel E (start b w)
  = (inl (ValueError "Can only cancel a DataFlow run."), start b w)
  /\ watch E (start b w) = (inl (KeyError "run_id"), start b w).
Proof.
  intros Habs. split.
  - unfold_ops. rewrite (dict_get_absent _ _ _ Habs). reflexivity.
  - unfold_ops. unfold getitem. rewrite Habs. reflexivity.
Qed.

(** C7: [delete] with neither [execution.id] nor [execution.run_id] (absent
    or falsy) returns without a single event; with [execution.id] it looks
    the Job up by that id and deletes what the lookup gave; with
    [execution.run_id] and no [execution.id] it does the same for the Run.
    A Run is deleted in the last case only. *)
Theorem delete_dispatch b w :
  let id := dict_get (execution (config b)) "id" VNone in
  let rid := dict_get (execution (config b)) "run_id" VNone in
  (truthy id = false -> truthy rid = false ->
   delete E (start b w) = (inr tt, start b w))
  /\ (truthy id = true ->
      delete E (start b w)
      = match from_dataflow_job E id (entered b w) with
        | (inl e, w1) => (inl e, after_auth b w1 [EJobLookup id])
        | (inr j, w1) =>
            let '(r, w2) := job_delete E j w1 in
            (r, after_auth b w2 [EJobLookup id; EJobDelete j])
        end)
  /\ (truthy id = false -> truthy rid = true ->
      delete E (start b w)
      = match from_ocid E rid (entered b w) with
        | (inl e, w1) => (inl e, after_auth b w1 [ERunLookup rid])
        | (inr r, w1) =>
            let '(res, w2) := run_delete E r w1 in
            (res, after_auth b w2 [ERunLookup rid; ERunDelete r])
        end)
  /\ (forall r, ERunDelete r ∈ trace (delete E (start b w)).2 ->
      truthy id = false /\ truthy rid = true).
Proof.
  intros id rid.
  assert (Hjob : truthy id = true ->
      delete E (start b w)
      = match from_dataflow_job E id (entered b w) with
        | (inl e, w1) => (inl e, after_auth b w1 [EJobLookup id])
        | (inr j, w1) =>
            let '(r, w2) := job_delete E j w1 in
            (r, after_auth b w2 [EJobLookup id; EJobDelete j])
        end).
  { intros Hid. destruct (dict_get_truthy _ _ Hid) as (v & Hv & _).
    subst id rid. unfold_ops. rewrite Hid. unfold getitem. rewrite Hv.
    rewrite (dict_get_present _ _ VNone _ Hv).
    destruct (from_dataflow_job E v _) as [[e|j] w1]; [reflexivity|].
    destruct (job_delete E j w1) as [r w2]. reflexivity. }
  assert (Hrun : truthy id = false -> truthy rid = true ->
      delete E (start b w)
      = match from_ocid E rid (entered b w) with
        | (inl e, w1) => (inl e, after_auth b w1 [ERunLookup rid])
        | (inr r, w1) =>
            let '(res, w2) := run_delete E r w1 in
            (res, after_auth b w2 [ERunLookup rid; ERunDelete r])
        end).
  { intros Hid Hrid. destruct (dict_get_truthy _ _ Hrid) as (v & Hv & _).
    subst id rid. unfold_ops. rewrite Hid, Hrid. unfold getitem. rewrite Hv.
    rewrite (dict_get_present _ _ VNone _ Hv).
    destruct (from_ocid E v _) as [[e|r] w1]; [reflexivity|].
    destruct (run_delete E r w1) as [res w2]. reflexivity. }
  assert (Hnone : truthy id = false -> truthy rid = false ->
      delete E (start b w) = (inr tt, start b w)).
  { intros Hid Hrid. subst id rid. unfold_ops. rewrite Hid, Hrid. reflexivity. }
  split; [exact Hnone | split; [exact Hjob | split; [exact Hrun |]]].
  intros r Hin.
  destruct (truthy id) eqn:Hid.
  - exfalso. rewrite (Hjob eq_refl) in Hin.
    destruct (from_dataflow_job E id _) as [[e|j] w1].
    + absent_event Hin.
    + destruct (job_delete E j w1) as [res w2]. absent_event Hin.
  - destruct (truthy rid) eqn:Hrid; [split; reflexivity|].
    exfalso. rewrite (Hnone eq_refl eq_refl) in Hin. absent_event Hin.
Qed.

(** [run] with [execution.ocid]: what it returns and leaves behind, by the
    answers of the service. *)
Definition existing_outcome b w (ocid : pyval)
  : result (gmap string string) * state E :=
  match from_dataflow_job E ocid (entered b w) with
  | (inl e, w1) => (inl e, after_auth b w1 [EJobLookup ocid])
  | (inr j, w1) =>
      match job_run E j w1 with
      | (inl e, w2) => (inl e, after_auth b w2 [EJobLookup ocid; EJobRun j])
      | (inr r, w2) =>
          (inl (UnboundLocalError "job_id"),
           after_auth b w2 [EJobLookup ocid; EJobRun j])
      end
  end.

Lemma run_existing_outcome b w (ocid : pyval) :
  execution (config b) !! "ocid" = Some ocid ->
  truthy ocid = true ->
  run E (start b w) = existing_outcome b w ocid.
Proof.
  intros Hocid Htrue. unfold existing_outcome. unfold_ops.
  rewrite (dict_get_present _ _ VNone _ Hocid), Htrue.
  unfold getitem. rewrite Hocid.
  destruct (from_dataflow_job E ocid _) as [[e|j] w1]; [reflexivity|].
  destruct (job_run E j w1) as [[e|r] w2]; reflexivity.
Qed.

(** C1 (where the code fails it): with [execution.ocid] set, [run] never
    returns the mapping and never prints.  When the lookup and the
    submission both succeed it binds [data_flow_id] and [run_id], leaves the
    [with] block and raises [UnboundLocalError] at the first use of
    [job_id]. *)
Theorem run_ocid_unbound_job_id b w (ocid : pyval) :
  execution (config b) !! "ocid" = Some ocid ->
  truthy ocid = true ->
  (exists e, (run E (start b w)).1 = inl e)
  /\ (forall line, EPrint line ∉ trace (run E (start b w)).2)
  /\ (forall j w1 r w2,
        from_dataflow_job E ocid (entered b w) = (inr j, w1) ->
        job_run E j w1 = (inr r, w2) ->
        run E (start b w)
        = (inl (UnboundLocalError "job_id"),
           after_auth b w2 [EJobLookup ocid; EJobRun j])).
Proof.
  intros Hocid Htrue. rewrite (run_existing_outcome _ _ _ Hocid Htrue).
  unfold existing_outcome. split; [|split].
  - destruct (from_dataflow_job E ocid _) as [[e|j] w1]; [simpl; eauto|].
    destruct (job_run E j w1) as [[e|r] w2]; simpl; eauto.
  - intros line Hin.
    destruct (from_dataflow_job E ocid _) as [[e|j] w1]; [absent_event Hin|].
    destruct (job_run E j w1) as [[e|r] w2]; absent_event Hin.
  - intros j w1 r w2 -> ->. reflexivity.
Qed.

(** C6: two backends whose configurations carry the same truthy
    [execution.ocid], and that enter the same authentication context, run
    alike whatever is stored under ["infrastructure"], a dictionary, another
    value or nothing: same outcome, same events, same world afterwards,
    both configurations untouched.  The Job is looked up by the ocid first,
    and no Job is created.  Both take the path that looks the Job up and
    submits it: the calls are the lookup by the ocid, in the world the
    authentication context opened, and, when the lookup gives a Job, the
    submission of a run of that Job, in the world the lookup left; a failed
    lookup is all there is, with its exception.  The world left is the one
    the last of these calls gave, outside the context. *)
Theorem run_ocid_ignores_infrastructure (b1 b2 : DataFlowBackend E) w (ocid : pyval) :
  execution (config b1) !! "ocid" = Some ocid ->
  execution (config b2) !! "ocid" = Some ocid ->
  truthy ocid = true ->
  auth_type b1 = auth_type b2 ->
  profile b1 = profile b2 ->
  let out1 := run E (start b1 w) in
  let out2 := run E (start b2 w) in
  out1.1 = out2.1
  /\ trace out1.2 = trace out2.2
  /\ outside out1.2 = outside out2.2
  /\ self out1.2 = b1 /\ self out2.2 = b2
  /\ head (provider_calls (trace out1.2)) = Some (EJobLookup ocid)
  /\ (forall job overwrite, EJobCreate job overwrite ∉ trace out1.2)
  /\ match from_dataflow_job E ocid (entered b1 w) with
     | (inl e, w1) =>
         out1.1 = inl e
         /\ provider_calls (trace out1.2) = [EJobLookup ocid]
         /\ provider_calls (trace out2.2) = [EJobLookup ocid]
         /\ outside out1.2 = auth_exit E w1
     | (inr j, w1) =>
         provider_calls (trace out1.2) = [EJobLookup ocid; EJobRun j]
         /\ provider_calls (trace out2.2) = [EJobLookup ocid; EJobRun j]
         /\ outside out1.2 = auth_exit E (job_run E j w1).2
         /\ match (job_run E j w1).1 with
            | inl e => out1.1 = inl e
            | inr _ => out1.1 = inl (UnboundLocalError "job_id")
            end
     end.
Proof.
  intros H1 H2 Htrue Hauth Hprof out1 out2. subst out1 out2.
  rewrite (run_existing_outcome _ _ _ H1 Htrue), (run_existing_outcome _ _ _ H2 Htrue).
  unfold existing_outcome, entered, after_auth. rewrite <- Hauth, <- Hprof.
  destruct (from_dataflow_job E ocid _) as [[e|j] w1].
  { repeat split; intros; try reflexivity. intros Hin. absent_event Hin. }
  destruct (job_run E j w1) as [[e|r] w2].
  - repeat split; intros; try reflexivity. intros Hin. absent_event Hin.
  - repeat split; intros; try reflexivity. intros Hin. absent_event Hin.
Qed.

(** *** [run] without [execution.ocid]: the validation of the required fields *)

Lemma existsb_filter {A : Type} (f : A -> bool) (l : list A) :
  existsb f l = match List.filter f l with [] => false | _ :: _ => true end.
Proof.
  induction l as [|a l IH]; simpl; [reflexivity|].
  destruct (f a); simpl; [reflexivity | exact IH].
Qed.

Lemma string_app_assoc (a b c : string) : ((a ++ b) ++ c = a ++ (b ++ c))%string.
Proof.
  induction a as [|x a IH]; [reflexivity|].
  change (String x ((a ++ b) ++ c) = String x (a ++ (b ++ c)))%string.
  now rewrite IH.
Qed.

Lemma missing_fields_spec (infra : gmap string pyval) (k : string) :
  k ∈ missing_fields infra <-> k ∈ REQUIRED_FIELDS /\ infra !! k = None.
Proof.
  unfold missing_fields. rewrite !list_elem_of_In, filter_In.
  unfold contains. rewrite negb_true_iff, bool_decide_eq_false.
  rewrite <- eq_None_not_Some. reflexivity.
Qed.

Lemma validation_fails (infra : gmap string pyval) (k : string) :
  k ∈ REQUIRED_FIELDS -> infra !! k = None ->
  existsb (fun k => negb (contains infra k)) REQUIRED_FIELDS = true.
Proof.
  intros Hreq Habs. rewrite existsb_filter.
  assert (Hin : k ∈ missing_fields infra) by (apply missing_fields_spec; auto).
  unfold missing_fields in Hin.
  destruct (List.filter _ REQUIRED_FIELDS); [|reflexivity].
  apply elem_of_nil in Hin. contradiction.
Qed.

Lemma validation_passes (infra : gmap string pyval) :
  missing_fields infra = [] ->
  existsb (fun k => negb (contains infra k)) REQUIRED_FIELDS = false
  /\ forall k, k ∈ REQUIRED_FIELDS -> contains infra k = true.
Proof.
  intros Hnil. split.
  - rewrite existsb_filter. fold (missing_fields infra). now rewrite Hnil.
  - intros k Hreq. unfold contains. apply bool_decide_eq_true.
    destruct (infra !! k) eqn:Hk; [eauto|].
    assert (Hin : k ∈ missing_fields infra) by (apply missing_fields_spec; auto).
    rewrite Hnil in Hin. apply elem_of_nil in Hin. contradiction.
Qed.

Lemma contains_true (d : gmap string pyval) (k : string) :
  is_Some (d !! k) -> contains d k = true.
Proof. intros H. unfold contains. now apply bool_decide_eq_true. Qed.

Lemma contains_lookup (d : gmap string pyval) (k : string) :
  contains d k = true -> exists v, d !! k = Some v.
Proof.
  unfold contains. rewrite bool_decide_eq_true. intros [v Hv]. eauto.
Qed.

(** X17: Without [execution.ocid], when what is stored under ["infrastructure"]
    is a dictionary, or nothing, and a required field is missing from it,
    [run] raises [ValueError]; the message carries the list of the required
    fields that are missing, in the order of [REQUIRED_FIELDS], and those
    only; the only events are the entry to and the exit from the
    authentication context, and the configuration is as it was. *)
Lemma run_missing_required_fields b w (k : string) :
  let infra := default ∅ (infrastructure (config b)) in
  holds_dict_or_nothing (config b) ->
  truthy (dict_get (execution (config b)) "ocid" VNone) = false ->
  k ∈ REQUIRED_FIELDS ->
  infra !! k = None ->
  run E (start b w)
  = (inl (ValueError (missing_message (missing_fields infra))),
     after_auth b (entered b w) [])
  /\ provider_calls (trace (run E (start b w)).2) = []
  /\ (forall f, f ∈ missing_fields infra <->
                f ∈ REQUIRED_FIELDS /\ infra !! f = None)
  /\ missing_message (missing_fields infra)
     = "Following fields are missing but are required for OCI DataFlow Jobs: ["
       ++ String.concat ", " (repr_str <$> missing_fields infra)
       ++ "]. Please run `ads opctl configure`.".
Proof.
  intros infra Hdict Hocid Hreq Habs.
  assert (Hrun : run E (start b w)
                 = (inl (ValueError (missing_message (missing_fields infra))),
                    after_auth b (entered b w) [])).
  { unfold_ops. rewrite Hocid. crunch. rewrite (stored_dict _ Hdict).
    fold infra. crunch.
    rewrite (validation_fails infra k Hreq Habs). crunch. reflexivity. }
  split; [exact Hrun|]. rewrite Hrun. split; [reflexivity|].
  split; [intros f; apply missing_fields_spec|].
  unfold missing_message, repr_list.
  generalize (String.concat ", " (repr_str <$> missing_fields infra)).
  intros body. rewrite !string_app_assoc. reflexivity.
Qed.

(** C2 (where the code fails it): an infrastructure section that is there
    and is [None], the section left empty, has none of the required fields.
    Without [execution.ocid], [run] does not raise the [ValueError] that
    names them: [infra] is [None], and the first [k not in infra] raises
    [TypeError].  [init] takes the same value for an empty section, by
    [or {}]. *)
Theorem run_null_infrastructure b w :
  truthy (dict_get (execution (config b)) "ocid" VNone) = false ->
  infrastructure_value (config b) = Some VNone ->
  run E (start b w)
  = (inl (TypeError "argument of type 'NoneType' is not iterable"),
     after_auth b (entered b w) [])
  /\ (forall msg, (run E (start b w)).1 <> inl (ValueError msg))
  /\ (forall uri overwrite runtime_type kwargs,
        init E uri overwrite runtime_type kwargs (start b w)
        = let key := py_or runtime_type (default_runtime_type E) in
          let '(r, w1) :=
            job_template E ∅ key uri overwrite kwargs (entered b w) in
          (r, after_auth b w1 [ETemplate ∅ key uri overwrite kwargs])).
Proof.
  intros Hocid Hnull.
  assert (Hrun : run E (start b w)
    = (inl (TypeError "argument of type 'NoneType' is not iterable"),
       after_auth b (entered b w) [])).
  { unfold_ops. rewrite Hocid. crunch. rewrite Hnull. reflexivity. }
  split; [exact Hrun|]. split.
  - intros msg. rewrite Hrun. discriminate.
  - intros uri overwrite runtime_type kwargs. unfold_ops. rewrite Hnull.
    cbn [default from_option id py_or truthy].
    destruct (job_template E _ _ _ _ _ _) as [r w1]. reflexivity.
Qed.

Lemma valid_is_dict (cfg : Config) :
  missing_fields (default ∅ (infrastructure cfg)) = [] ->
  exists d, infrastructure cfg = Some d
            /\ infrastructure_value cfg = Some (VDict d)
            /\ missing_fields d = [].
Proof.
  intros Hvalid. destruct (infrastructure cfg) as [d|] eqn:Hinfra.
  - exists d. split; [reflexivity|].
    split; [apply infrastructure_Some; exact Hinfra | exact Hvalid].
  - discriminate Hvalid.
Qed.

(** C9: without [execution.ocid] and with every required field in the
    infrastructure section, a configuration that lacks
    [execution.source_folder], or has it and lacks [execution.entrypoint],
    makes [run] raise [KeyError] on that key.  No call reaches the service
    and the configuration is as it was. *)
Theorem run_missing_execution_key b w :
  truthy (dict_get (execution (config b)) "ocid" VNone) = false ->
  missing_fields (default ∅ (infrastructure (config b))) = [] ->
  execution (config b) !! "source_folder" = None
  \/ execution (config b) !! "entrypoint" = None ->
  let key :=
    match execution (config b) !! "source_folder" with
    | None => "source_folder"
    | Some _ => "entrypoint"
    end in
  run E (start b w) = (inl (KeyError key), after_auth b (entered b w) [])
  /\ provider_calls (trace (run E (start b w)).2) = [].
Proof.
  intros Hocid Hvalid Hlack key.
  assert (Hrun : run E (start b w)
                 = (inl (KeyError key), after_auth b (entered b w) [])).
  { destruct (valid_is_dict _ Hvalid) as (d & _ & Hvalue & Hd).
    subst key. unfold_ops. rewrite Hocid. crunch. rewrite Hvalue.
    cbn [default from_option id]. crunch.
    rewrite (proj1 (validation_passes _ Hd)). unfold getitem.
    destruct (execution (config b) !! "source_folder") as [sf|]; [|reflexivity].
    destruct Hlack as [Hsf|Hep]; [discriminate Hsf|]. rewrite Hep. reflexivity. }
  split; [exact Hrun|]. rewrite Hrun. reflexivity.
Qed.

(** C10: on the path that creates the Job, if [infrastructure.configuration]
    is there and [json.loads] raises on it, that exception leaves [run];
    by then [script_bucket], and [archive_bucket] when [execution.archive]
    is set, are gone from the infrastructure section of the configuration.
    No call has reached the service. *)
Theorem run_bad_configuration_json b w (infra : gmap string pyval)
    (sf ep : string) (text : pyval) (e : exn) :
  let exe := execution (config b) in
  let infra' :=
    if truthy (dict_get exe "archive" VNone)
    then base.delete "archive_bucket" (base.delete "script_bucket" infra)
    else base.delete "script_bucket" infra in
  truthy (dict_get exe "ocid" VNone) = false ->
  infrastructure (config b) = Some infra ->
  missing_fields infra = [] ->
  exe !! "source_folder" = Some (VStr sf) ->
  exe !! "entrypoint" = Some (VStr ep) ->
  (truthy (dict_get exe "command" VNone) = true ->
   exists args, shlex_split (dict_get exe "command" VNone) = inr args) ->
  infra !! "configuration" = Some text ->
  json_loads E text = inl e ->
  run E (start b w)
  = (inl e, after_auth (with_infrastructure E b infra') (entered b w) [])
  /\ provider_calls (trace (run E (start b w)).2) = []
  /\ infrastructure (config (self (run E (start b w)).2)) = Some infra'
  /\ infra' !! "script_bucket" = None
  /\ is_Some (infra !! "script_bucket")
  /\ config (self (run E (start b w)).2) <> config b.
Proof.
  intros exe infra' Hocid Hinfra Hvalid Hsf Hep Hcmd Htext Hjson.
  destruct (validation_passes _ Hvalid) as [Hpass Hall].
  assert (Hsb : contains infra "script_bucket" = true).
  { apply Hall. apply list_elem_of_In. simpl. tauto. }
  destruct (contains_lookup _ _ Hsb) as [bucket Hbucket].
  assert (Hrun : run E (start b w)
    = (inl e, after_auth (with_infrastructure E b infra') (entered b w) [])).
  { assert (Hin1 : contains (base.delete "script_bucket" infra) "configuration" = true).
    { apply contains_true. rewrite lookup_delete_ne by discriminate. eauto. }
    assert (Hin2 : contains (base.delete "archive_bucket"
                     (base.delete "script_bucket" infra)) "configuration" = true).
    { apply contains_true. rewrite !lookup_delete_ne by discriminate. eauto. }
    subst exe infra'. unfold_ops. rewrite Hocid. crunch.
    rewrite (infrastructure_Some _ _ Hinfra).
    cbn [default from_option id]. crunch. rewrite Hpass. crunch.
    unfold getitem. rewrite Hsf, Hep. cbn [os_path_join]. crunch.
    rewrite Hsb. crunch. rewrite Hbucket. crunch.
    destruct (truthy (dict_get (execution (config b)) "command" VNone)) eqn:Hc.
    - destruct (dict_get_truthy _ _ Hc) as (c & Hclook & _).
      destruct (Hcmd eq_refl) as [args Hargs].
      rewrite (dict_get_present _ _ VNone _ Hclook) in Hargs.
      crunch. rewrite Hclook, Hargs. crunch.
      destruct (truthy (dict_get (execution (config b)) "archive" VNone)) eqn:Ha.
      + destruct (dict_get_truthy _ _ Ha) as (a & Halook & _).
        crunch. rewrite Halook. crunch.
        rewrite Hin2. crunch. unfold getitem.
        rewrite !lookup_delete_ne by discriminate.
        rewrite Htext. crunch. rewrite Hjson. reflexivity.
      + crunch. rewrite Hin1. crunch. unfold getitem.
        rewrite !lookup_delete_ne by discriminate.
        rewrite Htext. crunch. rewrite Hjson. reflexivity.
    - crunch.
      destruct (truthy (dict_get (execution (config b)) "archive" VNone)) eqn:Ha.
      + destruct (dict_get_truthy _ _ Ha) as (a & Halook & _).
        crunch. rewrite Halook. crunch.
        rewrite Hin2. crunch. unfold getitem.
        rewrite !lookup_delete_ne by discriminate.
        rewrite Htext. crunch. rewrite Hjson. reflexivity.
      + crunch. rewrite Hin1. crunch. unfold getitem.
        rewrite !lookup_delete_ne by discriminate.
        rewrite Htext. crunch. rewrite Hjson. reflexivity. }
  assert (Hgone : infra' !! "script_bucket" = None).
  { subst infra'. destruct (truthy (dict_get exe "archive" VNone)).
    - rewrite lookup_delete_ne by discriminate. apply lookup_delete_eq.
    - apply lookup_delete_eq. }
  rewrite Hrun. cbn [fst snd after_auth self trace config with_infrastructure
                     infrastructure].
  split; [reflexivity|]. split; [reflexivity|]. split; [reflexivity|].
  split; [exact Hgone|]. split; [eauto|].
  intros Heq. rewrite <- Heq in Hinfra. cbn [infrastructure] in Hinfra.
  injection Hinfra as Hsame. rewrite Hsame in Hgone. congruence.
Qed.


(** *** The example of the specification *)

Definition example_config : Config :=
  {| execution :=
       {[ "source_folder" := VStr "/a";
          "entrypoint" := VStr "job.py";
          "command" := VStr "--x 1" ]};
     infrastructure_value :=
       Some (VDict {[ "compartment_id" := VStr "c1";
                      "driver_shape" := VStr "d";
                      "executor_shape" := VStr "e";
                      "logs_bucket_uri" := VStr "b";
                      "script_bucket" := VStr "sb" ]}) |}.

Definition example_runtime : DataFlowRuntime :=
  {| rt_spec :=
       {[ "scriptPathURI" := VStr "/a/job.py";
          "scriptBucket" := VStr "sb";
          "args" := VList [VStr "--x"; VStr "1"] ]} |}.

Definition example_job : Job :=
  {| job_infrastructure :=
       {| spec :=
            VDict {[ "compartment_id" := VStr "c1";
                     "driver_shape" := VStr "d";
                     "executor_shape" := VStr "e";
                     "logs_bucket_uri" := VStr "b" ]} |};
     job_runtime := example_runtime |}.

(** What [run] does once it has built the Job, by the answers of the
    service: the Job is created, then submitted; when both succeed the two
    ids are printed and returned.  [infra'] is what is left of the
    infrastructure section. *)
Definition created_outcome b w (infra' : gmap string pyval) (job : Job)
    (overwrite : pyval) : result (gmap string string) * state E :=
  let b' := with_infrastructure E b infra' in
  let create := EJobCreate job overwrite in
  match job_create E job overwrite (entered b w) with
  | (inl e, w1) => (inl e, after_auth b' w1 [create])
  | (inr j, w1) =>
      match job_run E j w1 with
      | (inl e, w2) => (inl e, after_auth b' w2 [create; EJobRun j])
      | (inr r, w2) =>
          (inr {[ "job_id" := job_id E j; "run_id" := run_id E r ]},
           {| self := b';
              outside := auth_exit E w2;
              trace := [ EAuthEnter (auth_type b) (profile b);
                         create; EJobRun j; EAuthExit;
                         EPrint ("DataFlow App ID: " ++ job_id E j);
                         EPrint ("DataFlow Run ID: " ++ run_id E r) ] |})
      end
  end.

(** The creating path in its plain form: a command line, no archive, no
    Spark configuration. *)
Lemma run_create_outcome b w (infra : gmap string pyval)
    (sf ep : string) (bucket cmd args : pyval) :
  let exe := execution (config b) in
  truthy (dict_get exe "ocid" VNone) = false ->
  infrastructure (config b) = Some infra ->
  missing_fields infra = [] ->
  exe !! "source_folder" = Some (VStr sf) ->
  exe !! "entrypoint" = Some (VStr ep) ->
  infra !! "script_bucket" = Some bucket ->
  exe !! "command" = Some cmd ->
  truthy cmd = true ->
  shlex_split cmd = inr args ->
  truthy (dict_get exe "archive" VNone) = false ->
  infra !! "configuration" = None ->
  run E (start b w)
  = created_outcome b w (base.delete "script_bucket" infra)
      {| job_infrastructure :=
           {| spec := VDict (base.delete "script_bucket" infra) |};
         job_runtime :=
           {| rt_spec :=
                <["args" := args]>
                  (<["scriptBucket" := bucket]>
                     (<["scriptPathURI" := VStr (posix_join sf ep)]> ∅)) |} |}
      (dict_get exe "overwrite" (VBool false)).
Proof.
  intros exe Hocid Hinfra Hvalid Hsf Hep Hbucket Hcmd Htrue Hargs Harch Hconf.
  destruct (validation_passes _ Hvalid) as [Hpass Hall].
  assert (Hsb : contains infra "script_bucket" = true)
    by (apply contains_true; eauto).
  assert (Hnc : contains (base.delete "script_bucket" infra) "configuration" = false).
  { unfold contains. apply bool_decide_eq_false.
    rewrite lookup_delete_ne by discriminate. rewrite Hconf.
    intros [v Hv]. discriminate Hv. }
  subst exe. unfold created_outcome. unfold_ops. rewrite Hocid. crunch.
  rewrite (infrastructure_Some _ _ Hinfra).
  cbn [default from_option id]. crunch. rewrite Hpass. crunch.
  unfold getitem. rewrite Hsf, Hep. cbn [os_path_join]. crunch.
  rewrite Hsb. crunch. rewrite Hbucket. crunch.
  rewrite (dict_get_present _ _ VNone _ Hcmd), Htrue. crunch.
  rewrite Hcmd, Hargs. crunch. rewrite Harch. crunch. rewrite Hnc. crunch.
  destruct (job_create E _ _ _) as [[e|j] w1]; [reflexivity|]. crunch.
  destruct (job_run E j w1) as [[e|r] w2]; reflexivity.
Qed.

Definition example_backend (signer : signer_t E) (auth prof : pyval)
    (cl : client_t E) : DataFlowBackend E :=
  Build_DataFlowBackend E example_config signer auth prof cl.

(** C5: on the example configuration [run] hands [DataFlowRuntime] the
    dictionary with [scriptPathURI] = ["/a/job.py"], [scriptBucket] = ["sb"]
    and [args] = [["--x", "1"]], and nothing else; the Job it asks the
    service to create, its first call, has that runtime. *)
Theorem run_example_runtime_descriptor
    (signer : signer_t E) (auth prof : pyval) (cl : client_t E) w :
  let b := example_backend signer auth prof cl in
  run E (start b w)
  = created_outcome b w (df_spec (job_infrastructure example_job))
      example_job (VBool false)
  /\ head (provider_calls (trace (run E (start b w)).2))
     = Some (EJobCreate example_job (VBool false))
  /\ job_runtime example_job = example_runtime
  /\ rt_spec example_runtime
     = {[ "scriptPathURI" := VStr "/a/job.py";
          "scriptBucket" := VStr "sb";
          "args" := VList [VStr "--x"; VStr "1"] ]}.
Proof.
  intros b.
  assert (Hrun : run E (start b w)
                 = created_outcome b w (df_spec (job_infrastructure example_job))
                     example_job (VBool false)).
  { subst b. etransitivity.
    - apply (run_create_outcome _ w
               (default ∅ (infrastructure example_config))
               "/a" "job.py" (VStr "sb") (VStr "--x 1")
               (VList [VStr "--x"; VStr "1"]));
        reflexivity.
    - f_equal; reflexivity. }
  split; [exact Hrun|]. split; [|split; reflexivity].
  rewrite Hrun. unfold created_outcome.
  destruct (job_create E _ _ _) as [[e|j] w1]; [reflexivity|].
  destruct (job_run E j w1) as [[e|r] w2]; reflexivity.
Qed.

(** *** What the operations do to the configuration *)

(** An entry of the infrastructure section, if the section and the entry
    are there. *)
Definition infra_lookup (cfg : Config) (k : string) : option pyval :=
  match infrastructure cfg with
  | Some d => d !! k
  | None => None
  end.

(** [frame b b']: [b'] is [b] but for the entries [script_bucket],
    [archive_bucket] and [configuration] of the infrastructure section. *)
Definition frame b (b' : DataFlowBackend E) : Prop :=
  execution (config b') = execution (config b)
  /\ auth_type b' = auth_type b
  /\ profile b' = profile b
  /\ (is_Some (infrastructure (config b')) <-> is_Some (infrastructure (config b)))
  /\ forall k, k <> "script_bucket" -> k <> "archive_bucket" ->
               k <> "configuration" ->
               infra_lookup (config b') k = infra_lookup (config b) k.

Lemma frame_refl b : frame b b.
Proof. unfold frame. tauto. Qed.

Lemma with_auth_self {A : Type} (m : M E A) s :
  (forall s0, self (m s0).2 = self s0) -> self (with_auth E m s).2 = self s.
Proof.
  intros Hm. unfold with_auth.
  match goal with |- context [m ?s0] => specialize (Hm s0); destruct (m s0) end.
  exact Hm.
Qed.

Lemma call_self {A : Type} (ev : event E) (f : world E -> result A * world E) s :
  self (call E ev f s).2 = self s.
Proof. unfold call. destruct (f (outside s)). reflexivity. Qed.

Lemma bind_self {A B : Type} (m : M E A) (k : A -> M E B) s :
  (forall s0, self (m s0).2 = self s0) ->
  (forall a s0, self (k a s0).2 = self s0) ->
  self ((m ≫= k) s).2 = self s.
Proof.
  intros Hm Hk. unfold mbind, M_bind. specialize (Hm s).
  destruct (m s) as [[e|a] s1]; [exact Hm|].
  rewrite Hk. exact Hm.
Qed.

Lemma lookup_then_self {A : Type} (ev1 : pyval -> event E)
    (f1 : pyval -> world E -> result A * world E)
    (ev2 : A -> event E) (f2 : A -> world E -> result unit * world E)
    (v : pyval) s :
  self (with_auth E (x ← call E (ev1 v) (f1 v); call E (ev2 x) (f2 x)) s).2
  = self s.
Proof.
  apply with_auth_self. intros s0. apply bind_self.
  - intros s1. apply call_self.
  - intros a s1. apply call_self.
Qed.

Lemma init_self (uri overwrite runtime_type : pyval) (kwargs : gmap string pyval) s :
  self (init E uri overwrite runtime_type kwargs s).2 = self s.
Proof.
  unfold init. apply with_auth_self. intros s0. apply bind_self.
  - reflexivity.
  - intros cfg s1. destruct (py_or _ _); try reflexivity. apply call_self.
Qed.

Lemma cancel_self s : self (cancel E s).2 = self s.
Proof.
  unfold cancel. apply bind_self; [reflexivity|]. intros given s0.
  destruct (negb (truthy given)); [reflexivity|].
  apply bind_self.
  - intros s1. unfold execution_item. apply bind_self; [reflexivity|].
    intros cfg s2. unfold lift. reflexivity.
  - intros rid s1. apply lookup_then_self.
Qed.

Lemma execution_item_self (k : string) s :
  self (execution_item E k s).2 = self s.
Proof.
  unfold execution_item. apply bind_self; [reflexivity|].
  intros cfg s2. reflexivity.
Qed.

Lemma delete_self s : self (delete E s).2 = self s.
Proof.
  unfold delete. apply bind_self; [reflexivity|]. intros id s0.
  destruct (truthy id).
  - apply bind_self; [intros; apply execution_item_self|].
    intros v s1. apply lookup_then_self.
  - apply bind_self; [reflexivity|]. intros given s1.
    destruct (truthy given); [|reflexivity].
    apply bind_self; [intros; apply execution_item_self|].
    intros v s2. apply lookup_then_self.
Qed.

Lemma watch_self s : self (watch E s).2 = self s.
Proof.
  unfold watch. apply bind_self; [intros; apply execution_item_self|].
  intros v s1. apply lookup_then_self.
Qed.

Lemma run_existing_self s : self (run_existing E s).2 = self s.
Proof.
  unfold run_existing. apply bind_self; [intros; apply execution_item_self|].
  intros v s1. apply bind_self; [intros; apply call_self|].
  intros j s2. apply bind_self; [intros; apply call_self|].
  intros r s3. reflexivity.
Qed.

(** Splits on the first test or lookup the goal is stuck on. *)
Ltac split_stuck :=
  match goal with
  | |- context [match ?x with _ => _ end] =>
      lazymatch x with
      | context [match _ with _ => _ end] => fail
      | _ => destruct x eqn:?
      end
  end.

Lemma any_not_in_present (v : pyval) (ks : list string) (k : string) :
  any_not_in v ks = inr false -> k ∈ ks -> py_in k v = inr true.
Proof.
  induction ks as [|k' ks IH]; intros Hany Hin.
  - apply elem_of_nil in Hin. contradiction.
  - cbn [any_not_in] in Hany.
    destruct (py_in k' v) as [e|[|]] eqn:Hk'; try discriminate Hany.
    apply elem_of_cons in Hin as [->|Hin]; [exact Hk' | exact (IH Hany Hin)].
Qed.

(** When what is stored under ["infrastructure"] is not a dictionary,
    [run_new] raises and leaves the state as it found it: [None], a number
    or a truth value cannot be searched; a string or a list that has every
    required field has no [pop] by key. *)
Lemma run_new_not_dict s (v : pyval) :
  infrastructure_value (config (self s)) = Some v ->
  (forall d, v <> VDict d) ->
  exists e, run_new E s = (inl e, s).
Proof.
  destruct s as [b w tr]. cbn [self]. intros Hv Hnd.
  unfold_ops. crunch. rewrite Hv. cbn [default from_option id].
  destruct (any_not_in v REQUIRED_FIELDS) as [e|[|]] eqn:Hany;
    [eauto | destruct (those_not_in v REQUIRED_FIELDS); eauto |].
  assert (Hsb : py_in "script_bucket" v = inr true).
  { apply (any_not_in_present _ _ _ Hany). apply list_elem_of_In.
    simpl. tauto. }
  cbv beta iota zeta. unfold getitem.
  destruct (execution (config b) !! "source_folder") as [sf|]; [|eauto].
  destruct (execution (config b) !! "entrypoint") as [ep|]; [|eauto].
  destruct (os_path_join sf ep) as [e|p]; [eauto|].
  cbv beta iota zeta. rewrite Hsb. cbv beta iota zeta.
  destruct v as [| | | | |d]; try (cbn [py_pop]; eauto).
  exfalso. exact (Hnd d eq_refl).
Qed.

Lemma dict_or_not (v : pyval) : (exists d, v = VDict d) \/ (forall d, v <> VDict d).
Proof. destruct v; eauto; right; discriminate. Qed.

Lemma run_new_frame s :
  frame (self s) (self (run_new E s).2)
  /\ (missing_fields (default ∅ (infrastructure (config (self s)))) <> [] ->
      self (run_new E s).2 = self s).
Proof.
  destruct (infrastructure_value (config (self s))) as [v|] eqn:Hv.
  1: destruct (dict_or_not v) as [[d ->] | Hnd].
  2:{ destruct (run_new_not_dict s v Hv Hnd) as [e ->].
      split; [apply frame_refl | reflexivity]. }
  2:{ destruct s as [b w tr]. cbn [self] in *. unfold_ops. crunch.
      rewrite Hv. cbn [default from_option id]. crunch.
      change (existsb _ REQUIRED_FIELDS) with true. crunch.
      split; [apply frame_refl | reflexivity]. }
  destruct s as [b w tr]. cbn [self] in *.
  assert (Hinfra : infrastructure (config b) = Some d)
    by (unfold infrastructure; rewrite Hv; reflexivity).
  rewrite Hinfra. unfold_ops. crunch. rewrite Hv.
  cbn [default from_option id]. crunch.
  destruct (existsb _ REQUIRED_FIELDS) eqn:Hvalid; crunch.
  { split; [apply frame_refl | reflexivity]. }
  assert (Hnone : missing_fields d = []).
  { rewrite existsb_filter in Hvalid. unfold missing_fields.
    destruct (List.filter _ REQUIRED_FIELDS); [reflexivity | discriminate]. }
  unfold getitem.
  repeat (crunch; unfold getitem; split_stuck).
  all: crunch.
  all: (split; [| intros Hm; contradiction]).
  all: unfold frame, infra_lookup, infrastructure; crunch; rewrite ?Hv.
  all: repeat split; try (intros; assumption); eauto.
  all: intros k H1 H2 H3.
  all: rewrite ?lookup_insert_ne, ?lookup_delete_ne by congruence; reflexivity.
Qed.

Lemma with_auth_inner {A : Type} (m : M E A) s :
  self (with_auth E m s).2
  = self (m {| self := self s;
               outside := entered (self s) (outside s);
               trace := trace s ++ [EAuthEnter (auth_type (self s)) (profile (self s))] |}).2.
Proof. unfold with_auth, entered. destruct (m _). reflexivity. Qed.

Lemma bind_tail_self {A B : Type} (m : M E A) (k : A -> M E B) s :
  (forall a s0, self (k a s0).2 = self s0) ->
  self ((m ≫= k) s).2 = self (m s).2.
Proof.
  intros Hk. unfold mbind, M_bind.
  destruct (m s) as [[e|a] s1]; [reflexivity|]. apply Hk.
Qed.

Lemma run_frame s :
  let exe := execution (config (self s)) in
  let infra := default ∅ (infrastructure (config (self s))) in
  frame (self s) (self (run E s).2)
  /\ (truthy (dict_get exe "ocid" VNone) = true -> self (run E s).2 = self s)
  /\ (missing_fields infra <> [] -> self (run E s).2 = self s).
Proof.
  intros exe infra. unfold run.
  rewrite bind_tail_self.
  2:{ intros [jv rv] s0. apply bind_self.
      - intros s1. destruct jv; reflexivity.
      - intros jid s1. apply bind_self; [reflexivity|].
        intros _ s2. apply bind_self; [reflexivity|]. reflexivity. }
  rewrite with_auth_inner.
  set (s1 := {| self := self s; outside := _; trace := _ |}).
  change ((execution_get E "ocid" VNone
           ≫= (fun ocid => if truthy ocid then run_existing E else run_new E)) s1)
    with ((if truthy (dict_get exe "ocid" VNone)
           then run_existing E else run_new E) s1).
  destruct (truthy (dict_get exe "ocid" VNone)).
  - rewrite run_existing_self. cbn [s1 self].
    split; [apply frame_refl|]. split; reflexivity.
  - destruct (run_new_frame s1) as [Hframe Hsame].
    split; [exact Hframe|]. split; [discriminate|exact Hsame].
Qed.

(** C4 (as the code has it): [init], [apply], [cancel], [delete] and
    [watch] leave the backend's configuration as it is, in every state.
    [run] never changes the execution section; with [execution.ocid] set,
    or with a required field missing, it changes nothing at all; on the
    creating path it changes the infrastructure section at the keys
    [script_bucket], [archive_bucket] and [configuration], and at no
    other. *)
Theorem configuration_frame s :
  (forall uri overwrite runtime_type kwargs,
     self (init E uri overwrite runtime_type kwargs s).2 = self s)
  /\ self (apply E s).2 = self s
  /\ self (cancel E s).2 = self s
  /\ self (delete E s).2 = self s
  /\ self (watch E s).2 = self s
  /\ execution (config (self (run E s).2)) = execution (config (self s))
  /\ (forall k, k <> "script_bucket" -> k <> "archive_bucket" ->
                k <> "configuration" ->
                infra_lookup (config (self (run E s).2)) k
                = infra_lookup (config (self s)) k)
  /\ (truthy (dict_get (execution (config (self s))) "ocid" VNone) = true ->
      self (run E s).2 = self s)
  /\ (missing_fields (default ∅ (infrastructure (config (self s)))) <> [] ->
      self (run E s).2 = self s).
Proof.
  destruct (run_frame s) as ((Hexe & _ & _ & _ & Hinfra) & Hocid & Hmissing).
  split; [intros; apply init_self|].
  split; [reflexivity|].
  split; [apply cancel_self|].
  split; [apply delete_self|].
  split; [apply watch_self|].
  split; [exact Hexe|].
  split; [exact Hinfra|].
  split; [exact Hocid | exact Hmissing].
Qed.

End Properties.

(** ** Closed instances

    The operations run on the in-memory service. *)

Definition required_infra : gmap string pyval :=
  {[ "compartment_id" := VStr "c1";
     "driver_shape" := VStr "d";
     "executor_shape" := VStr "e";
     "logs_bucket_uri" := VStr "b";
     "script_bucket" := VStr "sb" ]}.

(** A request for a new run of the application [app-0]. *)
Definition ocid_config : Config :=
  {| execution := {[ "ocid" := VStr "app-0" ]}; infrastructure_value := None |}.

Definition ocid_config_with_infra : Config :=
  {| execution := {[ "ocid" := VStr "app-0" ]};
     infrastructure_value := Some (VDict required_infra) |}.

(** No [run_id], no [id]. *)
Definition bare_config : Config :=
  {| execution := {[ "auth" := VStr "api_key" ]}; infrastructure_value := None |}.

Definition id_config : Config :=
  {| execution := {[ "id" := VStr "app-0"; "run_id" := VStr "run-0" ]};
     infrastructure_value := None |}.

Definition run_id_config : Config :=
  {| execution := {[ "run_id" := VStr "run-0" ]}; infrastructure_value := None |}.

(** Two of the five required fields. *)
Definition incomplete_config : Config :=
  {| execution := execution example_config;
     infrastructure_value :=
       Some (VDict {[ "compartment_id" := VStr "c1";
                      "script_bucket" := VStr "sb" ]}) |}.

Definition no_entrypoint_config : Config :=
  {| execution := {[ "source_folder" := VStr "/a" ]};
     infrastructure_value := Some (VDict required_infra) |}.

(** A Spark configuration that is not JSON. *)
Definition bad_json_config : Config :=
  {| execution := execution example_config;
     infrastructure_value :=
       Some (VDict (<["configuration" := VStr "{spark"]> required_infra)) |}.

Example shlex_split_command :
  shlex_split (VStr "--x 1") = inr (VList [VStr "--x"; VStr "1"]).
Proof. reflexivity. Qed.

Example shlex_split_quotes :
  shlex_split (VStr "a 'b c'  d\ e f'g h'i")
  = inr (VList [VStr "a"; VStr "b c"; VStr "d e"; VStr "fg hi"]).
Proof. reflexivity. Qed.

Example shlex_split_open_quote :
  shlex_split (VStr "a 'b") = inl (ValueError "No closing quotation").
Proof. reflexivity. Qed.

Example posix_join_cases :
  posix_join "/a" "job.py" = "/a/job.py"
  /\ posix_join "/a/" "job.py" = "/a/job.py"
  /\ posix_join "/a" "/job.py" = "/job.py"
  /\ posix_join EmptyString "job.py" = "job.py".
Proof. repeat split. Qed.

(** On the creating path both ids are printed and returned. *)
Example run_example_in_memory :
  let out := run Mem.env (start (Mem.backend example_config) Mem.empty) in
  out.1 = inr {[ "job_id" := "app-"; "run_id" := "run-i" ]}
  /\ List.filter is_print (trace out.2)
     = [EPrint "DataFlow App ID: app-"; EPrint "DataFlow Run ID: run-i"].
Proof. cbv zeta. split; reflexivity. Qed.

(** C1, the failing input: [run] on a configuration with [execution.ocid]
    and a service that knows the application and accepts the run. *)
Lemma run_ocid_unbound_job_id_witness :
  let out := run Mem.env (start (Mem.backend ocid_config) Mem.one_app) in
  out.1 = inl (UnboundLocalError "job_id")
  /\ List.filter is_print (trace out.2) = []
  /\ provider_calls (trace out.2) = [EJobLookup (VStr "app-0"); @EJobRun Mem.env "app-0"].
Proof.
  destruct (run_ocid_unbound_job_id Mem.env (Mem.backend ocid_config)
              Mem.one_app (VStr "app-0") eq_refl eq_refl) as (_ & _ & Hrun).
  cbv zeta. erewrite Hrun by reflexivity. repeat split.
Defined.

(** A configuration with two of the five required fields. *)
Lemma run_missing_required_fields_witness :
  let out := run Mem.env (start (Mem.backend incomplete_config) Mem.empty) in
  out.1
  = inl (ValueError
      "Following fields are missing but are required for OCI DataFlow Jobs: ['driver_shape', 'executor_shape', 'logs_bucket_uri']. Please run `ads opctl configure`.")
  /\ provider_calls (trace out.2) = [].
Proof.
  assert (Hreq : "driver_shape" ∈ REQUIRED_FIELDS).
  { apply list_elem_of_In. simpl. tauto. }
  destruct (run_missing_required_fields Mem.env (Mem.backend incomplete_config)
              Mem.empty "driver_shape" eq_refl eq_refl Hreq eq_refl)
    as (Hrun & Hcalls & _).
  cbv zeta. rewrite Hcalls, Hrun. split; reflexivity.
Defined.

(** An infrastructure section left empty. *)
Definition null_infrastructure_config : Config :=
  {| execution := execution example_config;
     infrastructure_value := Some VNone |}.

(** C2, the failing input: [run] on a configuration whose infrastructure
    section is [None] raises [TypeError]; [init] on the same backend builds
    the template of an empty section. *)
Lemma run_null_infrastructure_witness :
  let b := Mem.backend null_infrastructure_config in
  (run Mem.env (start b Mem.empty)).1
  = inl (TypeError "argument of type 'NoneType' is not iterable")
  /\ provider_calls (trace (run Mem.env (start b Mem.empty)).2) = []
  /\ (init Mem.env VNone (VBool false) VNone ∅ (start b Mem.empty)).1
     = inr (VStr "kind: job").
Proof.
  destruct (run_null_infrastructure Mem.env
              (Mem.backend null_infrastructure_config) Mem.empty
              eq_refl eq_refl) as (Hrun & _ & Hinit).
  cbv zeta. rewrite Hrun, Hinit. repeat split.
Defined.

(** C3 as stated fails for [watch]: with no [execution.run_id] it raises
    [KeyError], which is no [ValueError]. *)
Lemma watch_absent_run_id_not_validation :
  execution bare_config !! "run_id" = None
  /\ (watch Mem.env (start (Mem.backend bare_config) Mem.empty)).1
     = inl (KeyError "run_id")
  /\ ~ (exists msg,
          (watch Mem.env (start (Mem.backend bare_config) Mem.empty)).1
          = inl (ValueError msg)).
Proof.
  split; [reflexivity|]. split; [reflexivity|].
  intros [msg Hmsg]. discriminate Hmsg.
Qed.

Lemma cancel_watch_absent_run_id_witness :
  (cancel Mem.env (start (Mem.backend bare_config) Mem.empty)).1
  = inl (ValueError "Can only cancel a DataFlow run.")
  /\ (watch Mem.env (start (Mem.backend bare_config) Mem.empty)).1
     = inl (KeyError "run_id")
  /\ trace (watch Mem.env (start (Mem.backend bare_config) Mem.empty)).2 = [].
Proof.
  destruct (cancel_watch_absent_run_id Mem.env (Mem.backend bare_config)
              Mem.empty eq_refl) as [Hcancel Hwatch].
  rewrite Hcancel, Hwatch. repeat split.
Defined.

(** C4 as stated fails: [run] on the example configuration takes
    [script_bucket] out of the infrastructure section that the backend
    holds. *)
Lemma run_changes_configuration :
  let b' := self (run Mem.env (start (Mem.backend example_config) Mem.empty)).2 in
  infra_lookup example_config "script_bucket" = Some (VStr "sb")
  /\ infra_lookup (config b') "script_bucket" = None
  /\ config b' <> example_config.
Proof.
  cbv zeta. split; [reflexivity|].
  assert (Hgone : infra_lookup
            (config (self (run Mem.env
               (start (Mem.backend example_config) Mem.empty)).2))
            "script_bucket" = None) by reflexivity.
  split; [exact Hgone|].
  intros Heq. rewrite Heq in Hgone. discriminate Hgone.
Qed.

Lemma configuration_frame_witness :
  self (run Mem.env (start (Mem.backend ocid_config_with_infra) Mem.one_app)).2
  = Mem.backend ocid_config_with_infra
  /\ self (delete Mem.env (start (Mem.backend id_config) Mem.one_app)).2
     = Mem.backend id_config.
Proof.
  destruct (configuration_frame Mem.env
              (start (Mem.backend ocid_config_with_infra) Mem.one_app))
    as (_ & _ & _ & _ & _ & _ & _ & Hocid & _).
  destruct (configuration_frame Mem.env (start (Mem.backend id_config) Mem.one_app))
    as (_ & _ & _ & Hdelete & _).
  split; [exact (Hocid eq_refl) | exact Hdelete].
Defined.

(** C6 at two configurations with the same [execution.ocid], one without
    an infrastructure section and one with all the required fields: the
    application is looked up and a run of it is submitted, for both. *)
Lemma run_ocid_ignores_infrastructure_witness :
  let out1 := run Mem.env (start (Mem.backend ocid_config) Mem.one_app) in
  let out2 := run Mem.env (start (Mem.backend ocid_config_with_infra) Mem.one_app) in
  infrastructure ocid_config <> infrastructure ocid_config_with_infra
  /\ out1.1 = out2.1
  /\ trace out1.2 = trace out2.2
  /\ outside out1.2 = outside out2.2
  /\ provider_calls (trace out1.2)
     = [EJobLookup (VStr "app-0"); @EJobRun Mem.env "app-0"]
  /\ provider_calls (trace out2.2)
     = [EJobLookup (VStr "app-0"); @EJobRun Mem.env "app-0"].
Proof.
  destruct (run_ocid_ignores_infrastructure Mem.env
              (Mem.backend ocid_config) (Mem.backend ocid_config_with_infra)
              Mem.one_app (VStr "app-0") eq_refl eq_refl eq_refl eq_refl eq_refl)
    as (Hres & Htrace & Hworld & _ & _ & _ & _ & Hcalls1 & Hcalls2 & _).
  cbv zeta. split; [discriminate|]. split; [exact Hres|].
  split; [exact Htrace|]. split; [exact Hworld|].
  split; [exact Hcalls1 | exact Hcalls2].
Defined.

(** C7 at the three kinds of configuration. *)
Lemma delete_dispatch_witness :
  delete Mem.env (start (Mem.backend bare_config) Mem.empty)
  = (inr tt, start (Mem.backend bare_config) Mem.empty)
  /\ provider_calls (trace (delete Mem.env (start (Mem.backend id_config) Mem.one_app)).2)
     = [EJobLookup (VStr "app-0"); @EJobDelete Mem.env "app-0"]
  /\ provider_calls
       (trace (delete Mem.env (start (Mem.backend run_id_config) Mem.one_app)).2)
     = [ERunLookup (VStr "run-0"); @ERunDelete Mem.env "run-0"].
Proof.
  destruct (delete_dispatch Mem.env (Mem.backend bare_config) Mem.empty)
    as (Hnone & _).
  destruct (delete_dispatch Mem.env (Mem.backend id_config) Mem.one_app)
    as (_ & Hjob & _).
  destruct (delete_dispatch Mem.env (Mem.backend run_id_config) Mem.one_app)
    as (_ & _ & Hrun & _).
  rewrite (Hnone eq_refl eq_refl), (Hjob eq_refl), (Hrun eq_refl eq_refl).
  repeat split.
Defined.

(** C9 at a configuration with [source_folder] and no [entrypoint]. *)
Lemma run_missing_execution_key_witness :
  let out := run Mem.env (start (Mem.backend no_entrypoint_config) Mem.empty) in
  out.1 = inl (KeyError "entrypoint")
  /\ provider_calls (trace out.2) = []
  /\ self out.2 = Mem.backend no_entrypoint_config.
Proof.
  destruct (run_missing_execution_key Mem.env (Mem.backend no_entrypoint_config)
              Mem.empty eq_refl eq_refl (or_intror eq_refl)) as [Hrun Hcalls].
  cbv zeta. rewrite Hcalls, Hrun. repeat split.
Defined.

(** C10 at a configuration whose [infrastructure.configuration] is not
    JSON. *)
Lemma run_bad_configuration_json_witness :
  let out := run Mem.env (start (Mem.backend bad_json_config) Mem.empty) in
  out.1 = inl (JSONDecodeError "Expecting value")
  /\ provider_calls (trace out.2) = []
  /\ infra_lookup bad_json_config "script_bucket" = Some (VStr "sb")
  /\ infra_lookup (config (self out.2)) "script_bucket" = None
  /\ config (self out.2) <> bad_json_config.
Proof.
  assert (Hcmd : truthy (dict_get (execution bad_json_config) "command" VNone) = true ->
                 exists args,
                   shlex_split (dict_get (execution bad_json_config) "command" VNone)
                   = inr args).
  { intros _. exists (VList [VStr "--x"; VStr "1"]). reflexivity. }
  destruct (run_bad_configuration_json Mem.env (Mem.backend bad_json_config)
              Mem.empty (<["configuration" := VStr "{spark"]> required_infra)
              "/a" "job.py" (VStr "{spark") (JSONDecodeError "Expecting value")
              eq_refl eq_refl eq_refl eq_refl eq_refl Hcmd eq_refl eq_refl)
    as (Hrun & Hcalls & Hinfra & Hgone & _ & Hneq).
  cbv zeta. split; [rewrite Hrun; reflexivity|].
  split; [exact Hcalls|]. split; [reflexivity|].
  split; [|exact Hneq].
  unfold infra_lookup. rewrite Hinfra. exact Hgone.
Defined.

(** ** Further properties of the operations *)

Section Operations.

Variable E : Environment.

Implicit Types (b : DataFlowBackend E) (w : world E) (s : state E).

Ltac run_ops :=
  cbv beta iota zeta delta
    [ run run_existing run_new cancel delete watch apply init
      mbind mret M_bind M_ret raise lift get_config log call write_infra
      execution_get execution_item with_auth read_local print start
      after_auth entered self outside trace ].

Ltac reduce_state :=
  repeat (progress (cbv beta iota zeta;
                    cbn [with_infrastructure with_infrastructure_value
                         config execution infrastructure_value
                         auth_type profile oci_auth client fst snd
                         py_in py_pop py_pop_default py_getitem py_setitem];
                    rewrite ?any_not_in_dict, ?those_not_in_dict)).

(** *** [cancel], [delete] and [watch] with a run id *)

(** A lookup followed by an action on what it gave, inside the
    authentication context: if the lookup raises, the action is not tried. *)
Definition lookup_outcome {A : Type} b w (found : event E)
    (find : world E -> result A * world E)
    (ev : A -> event E) (act : A -> world E -> result unit * world E)
  : result unit * state E :=
  match find (entered E b w) with
  | (inl e, w1) => (inl e, after_auth E b w1 [found])
  | (inr x, w1) =>
      let '(res, w2) := act x w1 in
      (res, after_auth E b w2 [found; ev x])
  end.

Lemma lookup_then_act {A : Type} b w (found : event E)
    (find : world E -> result A * world E)
    (ev : A -> event E) (act : A -> world E -> result unit * world E) :
  with_auth E (x ← call E found find; call E (ev x) (act x)) (start b w)
  = lookup_outcome b w found find ev act.
Proof.
  unfold lookup_outcome. run_ops.
  destruct (find _) as [[e|x] w1]; [reflexivity|].
  destruct (act x w1) as [res w2]. reflexivity.
Qed.

(** X1: [cancel] tests [execution.run_id] for truth: a run id that is there but
    is [None], empty or zero is refused like a missing one, without an
    event.  Otherwise the Run is looked up and then deleted; if the lookup
    raises, that exception leaves [cancel] and nothing is deleted. *)
Theorem cancel_outcome b w :
  let rid := dict_get (execution (config b)) "run_id" VNone in
  (truthy rid = false ->
   cancel E (start b w)
   = (inl (ValueError "Can only cancel a DataFlow run."), start b w))
  /\ (truthy rid = true ->
      cancel E (start b w)
      = lookup_outcome b w (ERunLookup rid) (from_ocid E rid)
          ERunDelete (run_delete E)).
Proof.
  intros rid. split; intros Hrid.
  - subst rid. run_ops. rewrite Hrid. reflexivity.
  - destruct (dict_get_truthy _ _ Hrid) as (v & Hv & _).
    subst rid. rewrite (dict_get_present _ _ VNone _ Hv) in *.
    rewrite <- lookup_then_act. run_ops.
    rewrite (dict_get_present _ _ VNone _ Hv), Hrid.
    cbn [negb]. reduce_state. unfold getitem. rewrite Hv. reflexivity.
Qed.

(** X2: [delete] without a (truthy) [execution.id] and with a truthy
    [execution.run_id] is [cancel]: same outcome, same events, same world,
    from every state. *)
Theorem delete_without_id_is_cancel s :
  truthy (dict_get (execution (config (self s))) "id" VNone) = false ->
  truthy (dict_get (execution (config (self s))) "run_id" VNone) = true ->
  delete E s = cancel E s.
Proof.
  destruct s as [b w tr]. cbn [self]. intros Hid Hrid.
  run_ops. rewrite Hid, Hrid. reflexivity.
Qed.

(** X3: [watch] has no test of its own: whatever is stored under
    [execution.run_id], be it [None], goes to the lookup; the Run is then
    watched, never deleted. *)
Theorem watch_outcome b w (rid : pyval) :
  execution (config b) !! "run_id" = Some rid ->
  watch E (start b w)
  = lookup_outcome b w (ERunLookup rid) (from_ocid E rid)
      ERunWatch (run_watch E).
Proof.
  intros Hrid. rewrite <- lookup_then_act. run_ops. unfold getitem.
  rewrite Hrid. reflexivity.
Qed.

(** *** The path of [run] that creates the Job *)

Definition runtime_keys : list string :=
  ["scriptPathURI"; "scriptBucket"; "args"; "archiveUri"; "archiveBucket"].

(** [built exe d job overwrite]: [job] and [overwrite] are what [run] makes
    of the execution section [exe] and the infrastructure section [d]. *)
Definition built (exe d : gmap string pyval) (job : Job) (overwrite : pyval) : Prop :=
  let rt := rt_spec (job_runtime job) in
  let df := df_spec (job_infrastructure job) in
  let cmd := dict_get exe "command" VNone in
  let arch := dict_get exe "archive" VNone in
  missing_fields d = []
  /\ overwrite = dict_get exe "overwrite" (VBool false)
  /\ (exists sf ep,
        exe !! "source_folder" = Some (VStr sf)
        /\ exe !! "entrypoint" = Some (VStr ep)
        /\ rt !! "scriptPathURI" = Some (VStr (posix_join sf ep)))
  /\ rt !! "scriptBucket" = d !! "script_bucket"
  /\ (if truthy cmd
      then exists args, shlex_split cmd = inr args /\ rt !! "args" = Some args
      else rt !! "args" = None)
  /\ (if truthy arch
      then rt !! "archiveUri" = Some arch
           /\ rt !! "archiveBucket" = Some (default VNone (d !! "archive_bucket"))
           /\ df !! "archive_bucket" = None
      else rt !! "archiveUri" = None
           /\ rt !! "archiveBucket" = None
           /\ df !! "archive_bucket" = d !! "archive_bucket")
  /\ (forall k, k ∉ runtime_keys -> rt !! k = None)
  /\ df !! "script_bucket" = None
  /\ match d !! "configuration" with
     | Some text =>
         exists parsed, json_loads E text = inr parsed
                        /\ df !! "configuration" = Some parsed
     | None => df !! "configuration" = None
     end
  /\ (forall k, k <> "script_bucket" -> k <> "archive_bucket" ->
                k <> "configuration" -> df !! k = d !! k).

Lemma os_path_join_inr (a c p : pyval) :
  os_path_join a c = inr p ->
  exists sf ep, a = VStr sf /\ c = VStr ep /\ p = VStr (posix_join sf ep).
Proof.
  destruct a, c; simpl; intros H; try discriminate H.
  injection H as <-. eauto.
Qed.

Lemma contains_delete_ne (d : gmap string pyval) (k k' : string) :
  k <> k' -> contains (base.delete k d) k' = contains d k'.
Proof. intros Hne. unfold contains. now rewrite lookup_delete_ne. Qed.

Lemma contains_false (d : gmap string pyval) (k : string) :
  contains d k = false -> d !! k = None.
Proof.
  unfold contains. rewrite bool_decide_eq_false. apply eq_None_not_Some.
Qed.

Ltac fail_left := solve [left; eexists _, _; reflexivity].

Ltac map_lookup :=
  repeat first
    [ rewrite lookup_insert_eq
    | rewrite lookup_insert_ne by (discriminate || congruence)
    | rewrite lookup_delete_eq
    | rewrite lookup_delete_ne by (discriminate || congruence)
    | rewrite lookup_empty ].

(** [run] on a stored value that is not a dictionary. *)
Lemma run_not_dict b w (v : pyval) :
  truthy (dict_get (execution (config b)) "ocid" VNone) = false ->
  infrastructure_value (config b) = Some v ->
  (forall d, v <> VDict d) ->
  exists e, run E (start b w) = (inl e, after_auth E b (entered E b w) []).
Proof.
  intros Hocid Hv Hnd.
  cbv beta iota zeta delta
    [ run mbind mret M_bind M_ret execution_get get_config with_auth start
      after_auth entered self outside trace ].
  rewrite Hocid. cbv beta iota zeta.
  match goal with
  | |- context [run_new E ?s1] =>
      destruct (run_new_not_dict E s1 v Hv Hnd) as [e ->]
  end.
  exists e. reflexivity.
Qed.

(** Without [execution.ocid], [run] either raises before it has called the
    service, with no event but the entry to and the exit from the
    authentication context, or builds a Job and goes on as
    [created_outcome] says. *)
Lemma run_create_cases b w :
  truthy (dict_get (execution (config b)) "ocid" VNone) = false ->
  (exists e b',
     run E (start b w)
     = (inl e, {| self := b';
                  outside := auth_exit E (entered E b w);
                  trace := [EAuthEnter (auth_type b) (profile b); EAuthExit] |}))
  \/ (exists d job overwrite,
        infrastructure (config b) = Some d
        /\ built (execution (config b)) d job overwrite
        /\ run E (start b w)
           = created_outcome E b w (df_spec (job_infrastructure job)) job overwrite).
Proof.
  intros Hocid.
  destruct (infrastructure_value (config b)) as [v|] eqn:Hv.
  1: destruct (dict_or_not v) as [[d ->] | Hnd].
  2:{ left. destruct (run_not_dict b w v Hocid Hv Hnd) as [e ->]. eauto. }
  2:{ run_ops. rewrite Hocid. reduce_state. rewrite Hv.
      cbn [default from_option id]. reduce_state.
      change (existsb _ REQUIRED_FIELDS) with true. reduce_state. fail_left. }
  assert (Hinfra : infrastructure (config b) = Some d)
    by (unfold infrastructure; rewrite Hv; reflexivity).
  rewrite Hinfra. run_ops. rewrite Hocid. reduce_state. rewrite Hv.
  cbn [default from_option id]. reduce_state.
  destruct (existsb _ REQUIRED_FIELDS) eqn:Hvalid; reduce_state; [fail_left|].
  assert (Hnone : missing_fields d = []).
  { rewrite existsb_filter in Hvalid. unfold missing_fields.
    destruct (List.filter _ REQUIRED_FIELDS); [reflexivity | discriminate]. }
  destruct (validation_passes _ Hnone) as [_ Hall].
  assert (Hsb : contains d "script_bucket" = true).
  { apply Hall. apply list_elem_of_In. simpl. tauto. }
  destruct (contains_lookup _ _ Hsb) as [bucket Hbucket].
  unfold getitem.
  destruct (execution (config b) !! "source_folder") as [sfv|] eqn:Hsf;
    [|fail_left].
  destruct (execution (config b) !! "entrypoint") as [epv|] eqn:Hep;
    [|fail_left].
  destruct (os_path_join sfv epv) as [e|p] eqn:Hjoin; [fail_left|].
  destruct (os_path_join_inr _ _ _ Hjoin) as (sf & ep & -> & -> & ->).
  reduce_state. rewrite Hsb. reduce_state. rewrite Hbucket. reduce_state.
  destruct (truthy (dict_get (execution (config b)) "command" VNone)) eqn:Hc;
    reduce_state.
  1: destruct (execution (config b) !! "command") as [c|] eqn:Hclook;
       [|fail_left].
  1: destruct (shlex_split c) as [e|args] eqn:Hargs; [fail_left|]; reduce_state.
  all: destruct (truthy (dict_get (execution (config b)) "archive" VNone)) eqn:Ha;
    reduce_state.
  1, 3: destruct (execution (config b) !! "archive") as [a|] eqn:Halook;
          [|fail_left]; reduce_state.
  all: rewrite ?contains_delete_ne by discriminate.
  all: destruct (contains d "configuration") eqn:Hcc; reduce_state.
  1, 3, 5, 7: destruct (contains_lookup _ _ Hcc) as [text Htext];
    unfold getitem; rewrite ?lookup_delete_ne by discriminate; rewrite Htext;
    reduce_state;
    destruct (json_loads E text) as [e|parsed] eqn:Hjson; [fail_left|];
    reduce_state.
  all: lazymatch goal with
       | |- context [job_create E ?job ?ow _] => right; exists d, job, ow
       end.
  all: split; [reflexivity|]; split;
    [| unfold created_outcome, entered;
       destruct (job_create E _ _ _) as [[?|?] ?]; [reflexivity|];
       reduce_state;
       destruct (job_run E _ _) as [[?|?] ?]; reflexivity ].
  all: unfold built; cbn [rt_spec job_runtime df_spec spec job_infrastructure];
    rewrite Hc, Ha.
  all: split; [exact Hnone|]; split; [reflexivity|].
  all: split; [exists sf, ep; split; [exact Hsf|]; split; [exact Hep|];
               map_lookup; reflexivity|].
  all: split; [map_lookup; rewrite Hbucket; reflexivity|].
  all: split;
    [ first [ exists args; split;
              [ rewrite (dict_get_present _ _ VNone _ Hclook); exact Hargs
              | map_lookup; reflexivity ]
            | map_lookup; reflexivity ] |].
  all: split;
    [ first [ rewrite (dict_get_present _ _ VNone _ Halook);
              split; [map_lookup; reflexivity|];
              split; map_lookup; reflexivity
            | split; [map_lookup; reflexivity|];
              split; map_lookup; reflexivity ] |].
  all: split;
    [ intros k Hk; unfold runtime_keys in Hk;
      rewrite !not_elem_of_cons in Hk;
      destruct Hk as (? & ? & ? & ? & ? & _); map_lookup; reflexivity |].
  all: split; [map_lookup; reflexivity|].
  all: split; [| intros k ? ? ?; map_lookup; reflexivity].
  all: first [ rewrite Htext; exists parsed; split;
               [exact Hjson | map_lookup; reflexivity]
             | rewrite (contains_false _ _ Hcc); map_lookup;
               apply (contains_false _ _ Hcc) ].
Qed.

(** [run] raises [ValueError] on the missing fields after entering and
    leaving the authentication context, and does nothing else. *)
Lemma run_validation_error b w (k : string) :
  let infra := default ∅ (infrastructure (config b)) in
  holds_dict_or_nothing (config b) ->
  truthy (dict_get (execution (config b)) "ocid" VNone) = false ->
  k ∈ REQUIRED_FIELDS ->
  infra !! k = None ->
  run E (start b w)
  = (inl (ValueError (missing_message (missing_fields infra))),
     after_auth E b (entered E b w) []).
Proof.
  intros infra Hdict Hocid Hreq Habs. run_ops. rewrite Hocid. reduce_state.
  rewrite (stored_dict _ Hdict). fold infra. reduce_state.
  rewrite (validation_fails infra k Hreq Habs). reduce_state. reflexivity.
Qed.

(** X4: [run] returns on one path only: [execution.ocid] is falsy, a Job built
    from the configuration was created, a run of it was submitted, the
    authentication context was left and the two ids were printed, the
    application's first; the mapping returned holds the ids the service
    gave. *)
Theorem run_returns_after_create_and_submit b w (m : gmap string string) :
  (run E (start b w)).1 = inr m ->
  truthy (dict_get (execution (config b)) "ocid" VNone) = false
  /\ exists d job overwrite j w1 r w2,
       infrastructure (config b) = Some d
       /\ built (execution (config b)) d job overwrite
       /\ job_create E job overwrite (entered E b w) = (inr j, w1)
       /\ job_run E j w1 = (inr r, w2)
       /\ m = {[ "job_id" := job_id E j; "run_id" := run_id E r ]}
       /\ trace (run E (start b w)).2
          = [ EAuthEnter (auth_type b) (profile b);
              EJobCreate job overwrite; EJobRun j; EAuthExit;
              EPrint ("DataFlow App ID: " ++ job_id E j);
              EPrint ("DataFlow Run ID: " ++ run_id E r) ]
       /\ outside (run E (start b w)).2 = auth_exit E w2.
Proof.
  intros Hret.
  destruct (truthy (dict_get (execution (config b)) "ocid" VNone)) eqn:Hocid.
  - exfalso. destruct (dict_get_truthy _ _ Hocid) as (o & Ho & Ht).
    rewrite (run_existing_outcome E b w o Ho Ht) in Hret.
    unfold existing_outcome in Hret.
    destruct (from_dataflow_job E o _) as [[e|j] w1]; [discriminate Hret|].
    destruct (job_run E j w1) as [[e|r] w2]; discriminate Hret.
  - split; [reflexivity|].
    destruct (run_create_cases b w Hocid)
      as [(e & b' & Hrun) | (d & job & ow & Hinfra & Hbuilt & Hrun)];
      rewrite Hrun in Hret |- *; [discriminate Hret|].
    unfold created_outcome in *.
    destruct (job_create E job ow _) as [[e|j] w1] eqn:Hcreate;
      [discriminate Hret|].
    destruct (job_run E j w1) as [[e|r] w2] eqn:Hsubmit;
      [discriminate Hret|].
    injection Hret as <-.
    exists d, job, ow, j, w1, r, w2.
    split; [exact Hinfra|]. split; [exact Hbuilt|].
    split; [exact Hcreate|]. split; [exact Hsubmit|].
    split; [reflexivity|]. split; reflexivity.
Qed.

(** The calls [run] makes to the service. *)
Inductive run_calls : list (event E) -> Prop :=
  | calls_none : run_calls []
  | calls_lookup ocid : run_calls [EJobLookup ocid]
  | calls_lookup_submit ocid j : run_calls [EJobLookup ocid; EJobRun j]
  | calls_create job overwrite : run_calls [EJobCreate job overwrite]
  | calls_create_submit job overwrite j :
      run_calls [EJobCreate job overwrite; EJobRun j].

(** X5: [run] calls the service at most twice: it looks a Job up or creates
    one, and then submits at most one run of it.  It never deletes and
    never watches: a Job whose submission fails stays created. *)
Theorem run_provider_calls b w :
  run_calls (provider_calls (trace (run E (start b w)).2))
  /\ (forall job overwrite j w1 e w2,
        truthy (dict_get (execution (config b)) "ocid" VNone) = false ->
        EJobCreate job overwrite ∈ trace (run E (start b w)).2 ->
        job_create E job overwrite (entered E b w) = (inr j, w1) ->
        job_run E j w1 = (inl e, w2) ->
        (run E (start b w)).1 = inl e
        /\ provider_calls (trace (run E (start b w)).2)
           = [EJobCreate job overwrite; EJobRun j]).
Proof.
  destruct (truthy (dict_get (execution (config b)) "ocid" VNone)) eqn:Hocid.
  - split; [|discriminate].
    destruct (dict_get_truthy _ _ Hocid) as (o & Ho & Ht).
    rewrite (run_existing_outcome E b w o Ho Ht). unfold existing_outcome.
    destruct (from_dataflow_job E o _) as [[e|j] w1]; [constructor|].
    destruct (job_run E j w1) as [[e|r] w2]; constructor.
  - destruct (run_create_cases b w Hocid)
      as [(e & b' & Hrun) | (d & job & ow & Hinfra & Hbuilt & Hrun)];
      rewrite Hrun.
    + split; [constructor|]. intros job ow j w1 e' w2 _ Hin. exfalso.
      simpl in Hin.
      repeat (apply elem_of_cons in Hin as [Hin|Hin]; [discriminate Hin|]).
      apply elem_of_nil in Hin. exact Hin.
    + unfold created_outcome.
      destruct (job_create E job ow _) as [[e|j] w1] eqn:Hcreate.
      { split; [constructor|]. intros job' ow' j' w1' e' w2' _ Hin Hc' _.
        exfalso. simpl in Hin.
        apply elem_of_cons in Hin as [Hin|Hin]; [discriminate Hin|].
        apply elem_of_cons in Hin as [Hin|Hin].
        - injection Hin as -> ->. rewrite Hcreate in Hc'. discriminate Hc'.
        - apply elem_of_cons in Hin as [Hin|Hin]; [discriminate Hin|].
          apply elem_of_nil in Hin. exact Hin. }
      assert (Hjob : forall job' ow' tl,
                EJobCreate job' ow'
                ∈ EAuthEnter (auth_type b) (profile b)
                  :: EJobCreate job ow :: EJobRun j :: EAuthExit :: tl ->
                Forall (fun ev : event E => is_print ev = true) tl ->
                job' = job /\ ow' = ow).
      { intros job' ow' tl Hin Hprints.
        apply elem_of_cons in Hin as [Hin|Hin]; [discriminate Hin|].
        apply elem_of_cons in Hin as [Hin|Hin]; [injection Hin; auto|].
        apply elem_of_cons in Hin as [Hin|Hin]; [discriminate Hin|].
        apply elem_of_cons in Hin as [Hin|Hin]; [discriminate Hin|].
        rewrite Forall_forall in Hprints. apply Hprints in Hin.
        discriminate Hin. }
      destruct (job_run E j w1) as [[e|r] w2] eqn:Hsubmit.
      * split; [constructor|]. intros job' ow' j' w1' e' w2' _ Hin Hc' Hs'.
        destruct (Hjob job' ow' [] Hin ltac:(constructor)) as [-> ->].
        rewrite Hcreate in Hc'. injection Hc' as <- <-.
        rewrite Hsubmit in Hs'. injection Hs' as <- <-.
        split; reflexivity.
      * split; [constructor|]. intros job' ow' j' w1' e' w2' _ Hin Hc' Hs'.
        exfalso.
        assert (Hp : Forall (fun ev : event E => is_print ev = true)
                  [EPrint ("DataFlow App ID: " ++ job_id E j);
                   @EPrint E ("DataFlow Run ID: " ++ run_id E r)])
          by (repeat constructor).
        destruct (Hjob job' ow' _ Hin Hp) as [-> ->].
        rewrite Hcreate in Hc'. injection Hc' as <- <-.
        rewrite Hsubmit in Hs'. discriminate Hs'.
Qed.

(** *** The Job that [run] sends to the service *)

Lemma created_outcome_create_event b w (infra' : gmap string pyval)
    (job job' : Job) (ow ow' : pyval) :
  EJobCreate job' ow' ∈ trace (created_outcome E b w infra' job ow).2 ->
  job' = job /\ ow' = ow.
Proof.
  unfold created_outcome.
  destruct (job_create E job ow _) as [[e|j] w1];
    [| destruct (job_run E j w1) as [[e|r] w2]];
    simpl; intros Hin;
    (apply elem_of_cons in Hin as [Hin|Hin]; [discriminate Hin|]);
    (apply elem_of_cons in Hin as [Hin|Hin]; [injection Hin; auto|]);
    exfalso;
    repeat (apply elem_of_cons in Hin as [Hin|Hin]; [discriminate Hin|]);
    apply elem_of_nil in Hin; exact Hin.
Qed.

Lemma created_outcome_self b w (infra' : gmap string pyval) (job : Job)
    (ow : pyval) :
  self (created_outcome E b w infra' job ow).2 = with_infrastructure E b infra'.
Proof.
  unfold created_outcome.
  destruct (job_create E job ow _) as [[e|j] w1]; [reflexivity|].
  destruct (job_run E j w1) as [[e|r] w2]; reflexivity.
Qed.

(** A creation in the events of [run] is the creation of the Job built from
    the configuration; the infrastructure section the backend holds
    afterwards is the one inside that Job. *)
Lemma run_created_job b w (job : Job) (ow : pyval) :
  EJobCreate job ow ∈ trace (run E (start b w)).2 ->
  truthy (dict_get (execution (config b)) "ocid" VNone) = false
  /\ exists d,
       infrastructure (config b) = Some d
       /\ built (execution (config b)) d job ow
       /\ self (run E (start b w)).2
          = with_infrastructure E b (df_spec (job_infrastructure job)).
Proof.
  intros Hin.
  destruct (truthy (dict_get (execution (config b)) "ocid" VNone)) eqn:Hocid.
  - exfalso. destruct (dict_get_truthy _ _ Hocid) as (o & Ho & Ht).
    rewrite (run_existing_outcome E b w o Ho Ht) in Hin.
    unfold existing_outcome in Hin.
    destruct (from_dataflow_job E o _) as [[e|j] w1];
      [| destruct (job_run E j w1) as [[e|r] w2]];
      simpl in Hin;
      repeat (apply elem_of_cons in Hin as [Hin|Hin]; [discriminate Hin|]);
      apply elem_of_nil in Hin; exact Hin.
  - split; [reflexivity|].
    destruct (run_create_cases b w Hocid)
      as [(e & b' & Hrun) | (d & job0 & ow0 & Hinfra & Hbuilt & Hrun)];
      rewrite Hrun in Hin |- *.
    + exfalso. simpl in Hin.
      repeat (apply elem_of_cons in Hin as [Hin|Hin]; [discriminate Hin|]).
      apply elem_of_nil in Hin. exact Hin.
    + destruct (created_outcome_create_event _ _ _ _ _ _ _ Hin) as [-> ->].
      exists d. split; [exact Hinfra|]. split; [exact Hbuilt|].
      apply created_outcome_self.
Qed.

(** X6: The runtime of every Job that [run] creates: [scriptPathURI] is the
    join of [source_folder] and [entrypoint]; [scriptBucket] is the
    [script_bucket] of the infrastructure section; [args] is there exactly
    when [execution.command] is truthy, and is its [shlex] split;
    [archiveUri] and [archiveBucket] are there exactly when
    [execution.archive] is truthy, the bucket being [None] when the
    infrastructure section has no [archive_bucket]; there is no other key.
    [overwrite] is [execution.overwrite], [False] by default. *)
Theorem run_runtime_descriptor b w (job : Job) (overwrite : pyval) :
  EJobCreate job overwrite ∈ trace (run E (start b w)).2 ->
  let exe := execution (config b) in
  let rt := rt_spec (job_runtime job) in
  let cmd := dict_get exe "command" VNone in
  let arch := dict_get exe "archive" VNone in
  exists d,
    infrastructure (config b) = Some d
    /\ overwrite = dict_get exe "overwrite" (VBool false)
    /\ (exists sf ep,
          exe !! "source_folder" = Some (VStr sf)
          /\ exe !! "entrypoint" = Some (VStr ep)
          /\ rt !! "scriptPathURI" = Some (VStr (posix_join sf ep)))
    /\ rt !! "scriptBucket" = d !! "script_bucket"
    /\ (if truthy cmd
        then exists args, shlex_split cmd = inr args /\ rt !! "args" = Some args
        else rt !! "args" = None)
    /\ (if truthy arch
        then rt !! "archiveUri" = Some arch
             /\ rt !! "archiveBucket" = Some (default VNone (d !! "archive_bucket"))
        else rt !! "archiveUri" = None /\ rt !! "archiveBucket" = None)
    /\ (forall k, k ∉ runtime_keys -> rt !! k = None).
Proof.
  intros Hin. cbv zeta.
  destruct (run_created_job b w job overwrite Hin) as (_ & d & Hinfra & Hbuilt & _).
  destruct Hbuilt as (_ & How & Hpath & Hbucket & Hargs & Harch & Hother & _).
  exists d. split; [exact Hinfra|]. split; [exact How|].
  split; [exact Hpath|]. split; [exact Hbucket|]. split; [exact Hargs|].
  split; [|exact Hother].
  revert Harch.
  destruct (truthy (dict_get (execution (config b)) "archive" VNone)); tauto.
Qed.

(** X7: The infrastructure of every Job that [run] creates is the
    infrastructure section of the configuration with every required field
    present, without [script_bucket], without [archive_bucket] when
    [execution.archive] is truthy, with [configuration] replaced by what
    [json.loads] made of it, and otherwise as it was.  It is the section
    the backend holds from then on. *)
Theorem run_infrastructure_descriptor b w (job : Job) (overwrite : pyval) :
  EJobCreate job overwrite ∈ trace (run E (start b w)).2 ->
  let df := df_spec (job_infrastructure job) in
  exists d,
    infrastructure (config b) = Some d
    /\ missing_fields d = []
    /\ df !! "script_bucket" = None
    /\ df !! "archive_bucket"
       = (if truthy (dict_get (execution (config b)) "archive" VNone)
          then None else d !! "archive_bucket")
    /\ match d !! "configuration" with
       | Some text =>
           exists parsed, json_loads E text = inr parsed
                          /\ df !! "configuration" = Some parsed
       | None => df !! "configuration" = None
       end
    /\ (forall k, k <> "script_bucket" -> k <> "archive_bucket" ->
                  k <> "configuration" -> df !! k = d !! k)
    /\ infrastructure (config (self (run E (start b w)).2)) = Some df.
Proof.
  intros Hin. cbv zeta.
  destruct (run_created_job b w job overwrite Hin)
    as (_ & d & Hinfra & Hbuilt & Hself).
  destruct Hbuilt as (Hvalid & _ & _ & _ & _ & Harch & _ & Hsb & Hconf & Hrest).
  exists d. split; [exact Hinfra|]. split; [exact Hvalid|].
  split; [exact Hsb|]. split.
  { revert Harch.
    destruct (truthy (dict_get (execution (config b)) "archive" VNone)); tauto. }
  split; [exact Hconf|]. split; [exact Hrest|].
  rewrite Hself. reflexivity.
Qed.

(** *** [run] a second time *)

Lemma missing_after_pop (d df : gmap string pyval) :
  missing_fields d = [] ->
  df !! "script_bucket" = None ->
  (forall k, k <> "script_bucket" -> k <> "archive_bucket" ->
             k <> "configuration" -> df !! k = d !! k) ->
  missing_fields df = ["script_bucket"].
Proof.
  intros Hvalid Hsb Hrest.
  destruct (validation_passes _ Hvalid) as [_ Hall].
  assert (Hin : forall k, k ∈ REQUIRED_FIELDS -> k <> "script_bucket" ->
                          contains df k = true).
  { intros k Hk Hne. specialize (Hall k Hk). unfold contains in *.
    rewrite Hrest; [exact Hall | exact Hne | |];
      intros ->; apply list_elem_of_In in Hk; simpl in Hk;
      intuition discriminate. }
  assert (Hout : contains df "script_bucket" = false).
  { unfold contains. apply bool_decide_eq_false. rewrite Hsb.
    intros [v Hv]. discriminate Hv. }
  unfold missing_fields, REQUIRED_FIELDS. cbn [List.filter].
  rewrite !Hin, Hout by
    (first [ discriminate | apply list_elem_of_In; simpl; tauto ]).
  reflexivity.
Qed.

(** X8: [run] cannot be repeated on the backend it returned from: the first
    call took [script_bucket] out of the configuration, so the second one,
    in whatever world, raises the [ValueError] of the missing fields,
    naming [script_bucket] alone, and calls nothing. *)
Theorem run_twice b w (m : gmap string string) (w' : world E) :
  (run E (start b w)).1 = inr m ->
  let b' := self (run E (start b w)).2 in
  run E (start b' w')
  = (inl (ValueError (missing_message ["script_bucket"])),
     after_auth E b' (entered E b' w') [])
  /\ provider_calls (trace (run E (start b' w')).2) = [].
Proof.
  intros Hret b'.
  assert (Hocid : truthy (dict_get (execution (config b)) "ocid" VNone) = false).
  { destruct (truthy (dict_get (execution (config b)) "ocid" VNone)) eqn:Hocid;
      [|reflexivity].
    exfalso. destruct (dict_get_truthy _ _ Hocid) as (o & Ho & Ht).
    rewrite (run_existing_outcome E b w o Ho Ht) in Hret.
    unfold existing_outcome in Hret.
    destruct (from_dataflow_job E o _) as [[e|j] w1]; [discriminate Hret|].
    destruct (job_run E j w1) as [[e|r] w2]; discriminate Hret. }
  destruct (run_create_cases b w Hocid)
    as [(e & b0 & Hrun) | (d & job & ow & Hinfra & Hbuilt & Hrun)];
    [rewrite Hrun in Hret; discriminate Hret|].
  assert (Hb' : b' = with_infrastructure E b (df_spec (job_infrastructure job))).
  { subst b'. rewrite Hrun. apply created_outcome_self. }
  destruct Hbuilt as (Hvalid & _ & _ & _ & _ & _ & _ & Hsb & _ & Hrest).
  assert (Hmissing : missing_fields (df_spec (job_infrastructure job))
                     = ["script_bucket"])
    by (exact (missing_after_pop _ _ Hvalid Hsb Hrest)).
  assert (Hagain : run E (start b' w')
            = (inl (ValueError (missing_message ["script_bucket"])),
               after_auth E b' (entered E b' w') [])).
  { rewrite <- Hmissing.
    rewrite (run_validation_error b' w' "script_bucket").
    - rewrite Hb'. reflexivity.
    - rewrite Hb'. reflexivity.
    - rewrite Hb'. exact Hocid.
    - apply list_elem_of_In. simpl. tauto.
    - rewrite Hb'. exact Hsb. }
  split; [exact Hagain|]. rewrite Hagain. reflexivity.
Qed.

(** *** Failures between the validation and the first call *)

(** X9: When [source_folder] and [entrypoint] are there but [os.path.join]
    refuses them, a value that is not a string for one, its exception
    leaves [run] before anything is taken out of the configuration and
    before any call. *)
Theorem run_path_type_error b w (folder entry : pyval) (e : exn) :
  truthy (dict_get (execution (config b)) "ocid" VNone) = false ->
  missing_fields (default ∅ (infrastructure (config b))) = [] ->
  execution (config b) !! "source_folder" = Some folder ->
  execution (config b) !! "entrypoint" = Some entry ->
  os_path_join folder entry = inl e ->
  run E (start b w) = (inl e, after_auth E b (entered E b w) []).
Proof.
  intros Hocid Hvalid Hsf Hep Hjoin.
  destruct (valid_is_dict _ Hvalid) as (d & _ & Hstored & Hd).
  run_ops. rewrite Hocid. reduce_state. rewrite Hstored.
  cbn [default from_option id]. reduce_state.
  rewrite (proj1 (validation_passes _ Hd)). reduce_state. unfold getitem.
  rewrite Hsf, Hep. reduce_state. rewrite Hjoin. reflexivity.
Qed.

(** X10: When [shlex.split] raises on [execution.command], an unbalanced quote
    for one, its exception leaves [run]: no call has been made, and
    [script_bucket] is already gone from the configuration. *)
Theorem run_bad_command b w (d : gmap string pyval) (sf ep : string)
    (cmd : pyval) (e : exn) :
  truthy (dict_get (execution (config b)) "ocid" VNone) = false ->
  infrastructure (config b) = Some d ->
  missing_fields d = [] ->
  execution (config b) !! "source_folder" = Some (VStr sf) ->
  execution (config b) !! "entrypoint" = Some (VStr ep) ->
  execution (config b) !! "command" = Some cmd ->
  truthy cmd = true ->
  shlex_split cmd = inl e ->
  run E (start b w)
  = (inl e,
     after_auth E (with_infrastructure E b (base.delete "script_bucket" d))
       (entered E b w) [])
  /\ is_Some (d !! "script_bucket")
  /\ infra_lookup (config (self (run E (start b w)).2)) "script_bucket" = None.
Proof.
  intros Hocid Hinfra Hvalid Hsf Hep Hcmd Htrue Hsplit.
  destruct (validation_passes _ Hvalid) as [Hpass Hall].
  assert (Hsb : contains d "script_bucket" = true).
  { apply Hall. apply list_elem_of_In. simpl. tauto. }
  destruct (contains_lookup _ _ Hsb) as [bucket Hbucket].
  assert (Hrun : run E (start b w)
    = (inl e,
       after_auth E (with_infrastructure E b (base.delete "script_bucket" d))
         (entered E b w) [])).
  { run_ops. rewrite Hocid. reduce_state.
    rewrite (infrastructure_Some _ _ Hinfra). cbn [default from_option id].
    reduce_state. rewrite Hpass. reduce_state. unfold getitem.
    rewrite Hsf, Hep. cbn [os_path_join]. reduce_state.
    rewrite Hsb. reduce_state. rewrite Hbucket. reduce_state.
    rewrite (dict_get_present _ _ VNone _ Hcmd), Htrue. reduce_state.
    rewrite Hcmd. reduce_state. rewrite Hsplit. reflexivity. }
  split; [exact Hrun|]. split; [eauto|].
  rewrite Hrun. unfold infra_lookup. cbn. apply lookup_delete_eq.
Qed.

(** *** The validation looks at keys, not at values *)

Lemma contains_insert (d : gmap string pyval) (k f : string) (v : pyval) :
  contains (<[k := v]> d) f = String.eqb f k || contains d f.
Proof.
  unfold contains. destruct (String.eqb f k) eqn:Hfk.
  - apply String.eqb_eq in Hfk as ->. rewrite lookup_insert_eq.
    apply bool_decide_eq_true. eauto.
  - apply String.eqb_neq in Hfk. rewrite lookup_insert_ne by congruence.
    reflexivity.
Qed.

(** X11: Giving a field a value, whatever the value, takes it off the list of
    the missing fields and leaves the rest of the list as it was. *)
Theorem missing_fields_insert (d : gmap string pyval) (k : string) (v : pyval) :
  missing_fields (<[k := v]> d)
  = List.filter (fun f => negb (String.eqb f k)) (missing_fields d).
Proof.
  unfold missing_fields. induction REQUIRED_FIELDS as [|f fs IH];
    [reflexivity|].
  cbn [List.filter]. rewrite contains_insert.
  destruct (String.eqb f k) eqn:Hfk; destruct (contains d f) eqn:Hf;
    cbn [orb negb List.filter]; rewrite ?Hfk; cbn [negb];
    rewrite ?IH; reflexivity.
Qed.

(** *** The authentication context *)

(** [scoped b s']: nothing happened, or the context was entered with the
    backend's [auth_type] and [profile], calls to the service followed, the
    context was left, and only then was anything printed. *)
Definition scoped b (s' : state E) : Prop :=
  trace s' = []
  \/ exists calls prints w',
       trace s'
       = EAuthEnter (auth_type b) (profile b) :: calls ++ EAuthExit :: prints
       /\ Forall (fun ev => is_provider_call ev = true) calls
       /\ Forall (fun ev => is_print ev = true) prints
       /\ outside s' = auth_exit E w'.

Lemma lookup_outcome_scoped {A : Type} b w (found : event E)
    (find : world E -> result A * world E)
    (ev : A -> event E) (act : A -> world E -> result unit * world E) :
  is_provider_call found = true ->
  (forall x, is_provider_call (ev x) = true) ->
  scoped b (lookup_outcome b w found find ev act).2.
Proof.
  intros Hfound Hev. unfold lookup_outcome. right.
  destruct (find _) as [[e|x] w1].
  - exists [found], [], w1. repeat split; repeat constructor; assumption.
  - destruct (act x w1) as [res w2].
    exists [found; ev x], [], w2. repeat split; repeat constructor; auto.
Qed.

Lemma lookup_outcome_entered {A : Type} b w (found : event E)
    (find : world E -> result A * world E)
    (ev : A -> event E) (act : A -> world E -> result unit * world E) :
  trace (lookup_outcome b w found find ev act).2 <> [].
Proof.
  unfold lookup_outcome. destruct (find _) as [[e|x] w1]; [discriminate|].
  destruct (act x w1) as [res w2]. discriminate.
Qed.

(** [cancel] either refuses a falsy [execution.run_id] and leaves the state
    as it found it, or enters the context for a lookup and a deletion. *)
Lemma cancel_cases b w :
  (truthy (dict_get (execution (config b)) "run_id" VNone) = false
   /\ (cancel E (start b w)).2 = start b w)
  \/ (truthy (dict_get (execution (config b)) "run_id" VNone) = true
      /\ exists v, cancel E (start b w)
                   = lookup_outcome b w (ERunLookup v) (from_ocid E v)
                       ERunDelete (run_delete E)).
Proof.
  destruct (truthy (dict_get (execution (config b)) "run_id" VNone)) eqn:Hr.
  - right. split; [reflexivity|].
    destruct (dict_get_truthy _ _ Hr) as (v & Hv & Ht). exists v.
    rewrite <- lookup_then_act. run_ops.
    rewrite (dict_get_present _ _ VNone _ Hv), Ht. cbn [negb]. reduce_state.
    unfold getitem. rewrite Hv. reflexivity.
  - left. split; [reflexivity|]. run_ops. rewrite Hr. reflexivity.
Qed.

(** [delete] either finds neither id and leaves the state as it found it,
    or enters the context for a lookup and a deletion. *)
Lemma delete_cases b w :
  (truthy (dict_get (execution (config b)) "id" VNone) = false
   /\ truthy (dict_get (execution (config b)) "run_id" VNone) = false
   /\ (delete E (start b w)).2 = start b w)
  \/ ((truthy (dict_get (execution (config b)) "id" VNone) = true
       \/ truthy (dict_get (execution (config b)) "run_id" VNone) = true)
      /\ ((exists v, delete E (start b w)
                     = lookup_outcome b w (EJobLookup v) (from_dataflow_job E v)
                         EJobDelete (job_delete E))
          \/ (exists v, delete E (start b w)
                        = lookup_outcome b w (ERunLookup v) (from_ocid E v)
                            ERunDelete (run_delete E)))).
Proof.
  destruct (truthy (dict_get (execution (config b)) "id" VNone)) eqn:Hi.
  - right. split; [left; reflexivity|]. left.
    destruct (dict_get_truthy _ _ Hi) as (v & Hv & Ht). exists v.
    rewrite <- lookup_then_act. run_ops.
    rewrite (dict_get_present _ _ VNone _ Hv), Ht. reduce_state.
    unfold getitem. rewrite Hv. reflexivity.
  - destruct (truthy (dict_get (execution (config b)) "run_id" VNone)) eqn:Hr.
    + right. split; [right; reflexivity|]. right.
      destruct (dict_get_truthy _ _ Hr) as (v & Hv & Ht). exists v.
      rewrite <- lookup_then_act. run_ops. rewrite Hi. reduce_state.
      rewrite (dict_get_present _ _ VNone _ Hv), Ht. reduce_state.
      unfold getitem. rewrite Hv. reflexivity.
    + left. split; [reflexivity|]. split; [reflexivity|].
      run_ops. rewrite Hi, Hr. reflexivity.
Qed.

(** [watch] either misses [execution.run_id] and leaves the state as it
    found it, or enters the context for a lookup and the watching. *)
Lemma watch_cases b w :
  (execution (config b) !! "run_id" = None
   /\ (watch E (start b w)).2 = start b w)
  \/ (is_Some (execution (config b) !! "run_id")
      /\ exists v, watch E (start b w)
                   = lookup_outcome b w (ERunLookup v) (from_ocid E v)
                       ERunWatch (run_watch E)).
Proof.
  destruct (execution (config b) !! "run_id") as [v|] eqn:Hv.
  - right. split; [eauto|]. exists v.
    rewrite <- lookup_then_act. run_ops. unfold getitem. rewrite Hv.
    reflexivity.
  - left. split; [reflexivity|]. run_ops. unfold getitem. rewrite Hv.
    reflexivity.
Qed.

(** X12: Every call that [run], [cancel], [delete] and [watch] make to the
    service lies inside the authentication context of the backend, which is
    left on every path, by return or by exception; [run] prints after
    leaving it, and always enters it.  [cancel], [delete] and [watch] test
    the execution section before they enter the context: [cancel] on a
    falsy [execution.run_id], [delete] with [execution.id] and
    [execution.run_id] both falsy, and [watch] without the key [run_id]
    leave the state as they found it, no event and the world untouched; and
    these are the only cases in which they log no event. *)
Theorem auth_context_scope b w :
  scoped b (run E (start b w)).2
  /\ trace (run E (start b w)).2 <> []
  /\ scoped b (cancel E (start b w)).2
  /\ scoped b (delete E (start b w)).2
  /\ scoped b (watch E (start b w)).2
  /\ (truthy (dict_get (execution (config b)) "run_id" VNone) = false ->
      (cancel E (start b w)).2 = start b w)
  /\ (truthy (dict_get (execution (config b)) "id" VNone) = false ->
      truthy (dict_get (execution (config b)) "run_id" VNone) = false ->
      (delete E (start b w)).2 = start b w)
  /\ (execution (config b) !! "run_id" = None ->
      (watch E (start b w)).2 = start b w)
  /\ (trace (cancel E (start b w)).2 = [] <->
      truthy (dict_get (execution (config b)) "run_id" VNone) = false)
  /\ (trace (delete E (start b w)).2 = [] <->
      truthy (dict_get (execution (config b)) "id" VNone) = false
      /\ truthy (dict_get (execution (config b)) "run_id" VNone) = false)
  /\ (trace (watch E (start b w)).2 = [] <->
      execution (config b) !! "run_id" = None).
Proof.
  assert (Hrun : scoped b (run E (start b w)).2
                 /\ trace (run E (start b w)).2 <> []).
  { destruct (truthy (dict_get (execution (config b)) "ocid" VNone)) eqn:Hocid.
    - destruct (dict_get_truthy _ _ Hocid) as (o & Ho & Ht).
      rewrite (run_existing_outcome E b w o Ho Ht). unfold existing_outcome.
      destruct (from_dataflow_job E o _) as [[e|j] w1];
        [| destruct (job_run E j w1) as [[e|r] w2]];
        (split; [right | discriminate]).
      + exists [EJobLookup o], [], w1. repeat split; repeat constructor.
      + exists [EJobLookup o; EJobRun j], [], w2.
        repeat split; repeat constructor.
      + exists [EJobLookup o; EJobRun j], [], w2.
        repeat split; repeat constructor.
    - destruct (run_create_cases b w Hocid)
        as [(e & b' & Hrun) | (d & job & ow & Hinfra & Hbuilt & Hrun)];
        rewrite Hrun.
      + split; [right | discriminate].
        exists [], [], (entered E b w). repeat split; repeat constructor.
      + unfold created_outcome.
        destruct (job_create E job ow _) as [[e|j] w1];
          [| destruct (job_run E j w1) as [[e|r] w2]];
          (split; [right | discriminate]).
        * exists [EJobCreate job ow], [], w1. repeat split; repeat constructor.
        * exists [EJobCreate job ow; EJobRun j], [], w2.
          repeat split; repeat constructor.
        * exists [EJobCreate job ow; EJobRun j],
                 [EPrint ("DataFlow App ID: " ++ job_id E j);
                  EPrint ("DataFlow Run ID: " ++ run_id E r)], w2.
          repeat split; repeat constructor. }
  destruct Hrun as [Hscoped Hentered].
  split; [exact Hscoped|]. split; [exact Hentered|].
  assert (Hcancel : scoped b (cancel E (start b w)).2
            /\ (truthy (dict_get (execution (config b)) "run_id" VNone) = false ->
                (cancel E (start b w)).2 = start b w)
            /\ (trace (cancel E (start b w)).2 = [] <->
                truthy (dict_get (execution (config b)) "run_id" VNone) = false)).
  { destruct (cancel_cases b w) as [[Hr Hsame] | [Hr [v Hop]]].
    - split; [left; rewrite Hsame; reflexivity|].
      split; [intros _; exact Hsame|].
      split; [intros _; exact Hr | intros _; rewrite Hsame; reflexivity].
    - split; [rewrite Hop; apply lookup_outcome_scoped; reflexivity|].
      split; [intros Hf; rewrite Hf in Hr; discriminate Hr|].
      split; [| intros Hf; rewrite Hf in Hr; discriminate Hr].
      rewrite Hop. intros Hnil.
      exfalso. exact (lookup_outcome_entered _ _ _ _ _ _ Hnil). }
  assert (Hdelete : scoped b (delete E (start b w)).2
            /\ (truthy (dict_get (execution (config b)) "id" VNone) = false ->
                truthy (dict_get (execution (config b)) "run_id" VNone) = false ->
                (delete E (start b w)).2 = start b w)
            /\ (trace (delete E (start b w)).2 = [] <->
                truthy (dict_get (execution (config b)) "id" VNone) = false
                /\ truthy (dict_get (execution (config b)) "run_id" VNone) = false)).
  { destruct (delete_cases b w)
      as [(Hi & Hr & Hsame) | [Hsome [[v Hop] | [v Hop]]]].
    - split; [left; rewrite Hsame; reflexivity|].
      split; [intros _ _; exact Hsame|].
      split; [intros _; split; assumption | intros _; rewrite Hsame; reflexivity].
    - split; [rewrite Hop; apply lookup_outcome_scoped; reflexivity|].
      split; [intros Hi Hr; destruct Hsome as [H|H];
              [rewrite Hi in H | rewrite Hr in H]; discriminate H|].
      split; [| intros [Hi Hr]; destruct Hsome as [H|H];
                [rewrite Hi in H | rewrite Hr in H]; discriminate H].
      rewrite Hop. intros Hnil.
      exfalso. exact (lookup_outcome_entered _ _ _ _ _ _ Hnil).
    - split; [rewrite Hop; apply lookup_outcome_scoped; reflexivity|].
      split; [intros Hi Hr; destruct Hsome as [H|H];
              [rewrite Hi in H | rewrite Hr in H]; discriminate H|].
      split; [| intros [Hi Hr]; destruct Hsome as [H|H];
                [rewrite Hi in H | rewrite Hr in H]; discriminate H].
      rewrite Hop. intros Hnil.
      exfalso. exact (lookup_outcome_entered _ _ _ _ _ _ Hnil). }
  assert (Hwatch : scoped b (watch E (start b w)).2
            /\ (execution (config b) !! "run_id" = None ->
                (watch E (start b w)).2 = start b w)
            /\ (trace (watch E (start b w)).2 = [] <->
                execution (config b) !! "run_id" = None)).
  { destruct (watch_cases b w) as [[Hv Hsame] | [[x Hx] [v Hop]]].
    - split; [left; rewrite Hsame; reflexivity|].
      split; [intros _; exact Hsame|].
      split; [intros _; exact Hv | intros _; rewrite Hsame; reflexivity].
    - split; [rewrite Hop; apply lookup_outcome_scoped; reflexivity|].
      split; [intros Hf; rewrite Hf in Hx; discriminate Hx|].
      split; [| intros Hf; rewrite Hf in Hx; discriminate Hx].
      rewrite Hop. intros Hnil.
      exfalso. exact (lookup_outcome_entered _ _ _ _ _ _ Hnil). }
  destruct Hcancel as (Hc1 & Hc2 & Hc3).
  destruct Hdelete as (Hd1 & Hd2 & Hd3).
  destruct Hwatch as (Hw1 & Hw2 & Hw3).
  repeat (split; [assumption|]). assumption.
Qed.

(** *** Construction, and what the operations read *)

(** X13: [__init__] reads the execution section only: two configurations with
    the same execution section both fail, with the same exception, or both
    give a backend, with the same signer, client, [auth_type] and
    [profile]; each backend holds the configuration it was given. *)
Theorem init_reads_execution_only (c1 c2 : Config) :
  execution c1 = execution c2 ->
  match DataFlowBackend_init E c1, DataFlowBackend_init E c2 with
  | inl e1, inl e2 => e1 = e2
  | inr b1, inr b2 =>
      config b1 = c1 /\ config b2 = c2
      /\ oci_auth E b1 = oci_auth E b2
      /\ client E b1 = client E b2
      /\ auth_type b1 = auth_type b2
      /\ profile b1 = profile b2
  | _, _ => False
  end.
Proof.
  intros Hexe. unfold DataFlowBackend_init. rewrite Hexe.
  destruct (create_signer E _ _ _) as [e|signer]; [reflexivity|].
  destruct (dataflow_client E signer) as [e|cl]; [reflexivity|].
  repeat split.
Qed.

(** Two outcomes that differ at most in the backend they leave. *)
Definition same_outcome {A : Type} (o1 o2 : result A * state E) : Prop :=
  o1.1 = o2.1 /\ trace o1.2 = trace o2.2 /\ outside o1.2 = outside o2.2.

Ltac split_on_stuck :=
  match goal with
  | |- context [match ?x with _ => _ end] =>
      lazymatch x with
      | context [match _ with _ => _ end] => fail
      | _ => destruct x eqn:?
      end
  end.

Lemma same_outcome_without_infrastructure (b1 b2 : DataFlowBackend E) w :
  execution (config b1) = execution (config b2) ->
  auth_type b1 = auth_type b2 ->
  profile b1 = profile b2 ->
  same_outcome (cancel E (start b1 w)) (cancel E (start b2 w))
  /\ same_outcome (delete E (start b1 w)) (delete E (start b2 w))
  /\ same_outcome (watch E (start b1 w)) (watch E (start b2 w))
  /\ (truthy (dict_get (execution (config b1)) "ocid" VNone) = true ->
      same_outcome (run E (start b1 w)) (run E (start b2 w))).
Proof.
  intros Hexe Hauth Hprof. unfold same_outcome.
  split; [|split; [|split]].
  - run_ops. unfold getitem.
    repeat (reduce_state; rewrite ?Hexe, ?Hauth, ?Hprof; split_on_stuck);
      reduce_state; rewrite ?Hexe, ?Hauth, ?Hprof; repeat split.
  - run_ops. unfold getitem.
    repeat (reduce_state; rewrite ?Hexe, ?Hauth, ?Hprof; split_on_stuck);
      reduce_state; rewrite ?Hexe, ?Hauth, ?Hprof; repeat split.
  - run_ops. unfold getitem.
    repeat (reduce_state; rewrite ?Hexe, ?Hauth, ?Hprof; split_on_stuck);
      reduce_state; rewrite ?Hexe, ?Hauth, ?Hprof; repeat split.
  - intros Hocid. destruct (dict_get_truthy _ _ Hocid) as (o & Ho & Ht).
    rewrite (run_existing_outcome E b1 w o Ho Ht).
    rewrite Hexe in Ho.
    rewrite (run_existing_outcome E b2 w o Ho Ht).
    unfold existing_outcome, entered, after_auth. rewrite Hauth, Hprof.
    destruct (from_dataflow_job E o _) as [[e|j] w1]; [repeat split|].
    destruct (job_run E j w1) as [[e|r] w2]; repeat split.
Qed.

(** X14: Backends made from two configurations with the same execution section
    cannot be told apart by [cancel], [delete] and [watch], nor by [run]
    when [execution.ocid] is set: same result, same events, same world,
    whatever the infrastructure sections hold. *)
Theorem constructed_backends_ignore_infrastructure
    (c1 c2 : Config) (b1 b2 : DataFlowBackend E) w :
  execution c1 = execution c2 ->
  DataFlowBackend_init E c1 = inr b1 ->
  DataFlowBackend_init E c2 = inr b2 ->
  same_outcome (cancel E (start b1 w)) (cancel E (start b2 w))
  /\ same_outcome (delete E (start b1 w)) (delete E (start b2 w))
  /\ same_outcome (watch E (start b1 w)) (watch E (start b2 w))
  /\ (truthy (dict_get (execution c1) "ocid" VNone) = true ->
      same_outcome (run E (start b1 w)) (run E (start b2 w))).
Proof.
  intros Hexe H1 H2. unfold DataFlowBackend_init in H1, H2.
  rewrite Hexe in H1.
  destruct (create_signer E _ _ _) as [e|signer]; [discriminate H1|].
  destruct (dataflow_client E signer) as [e|cl]; [discriminate H1|].
  injection H1 as <-. injection H2 as <-.
  match goal with
  | |- same_outcome (cancel E (start ?x w)) (cancel E (start ?y w)) /\ _ =>
      exact (same_outcome_without_infrastructure x y w Hexe eq_refl eq_refl)
  end.
Qed.

(** *** More on the two paths of [run] *)

(** X15: Without [execution.ocid] and without an infrastructure section, the
    key absent from the configuration, [run] works on an empty dictionary:
    it raises the [ValueError] that names all five required fields, in the
    order of [REQUIRED_FIELDS]. *)
Theorem run_without_infrastructure b w :
  truthy (dict_get (execution (config b)) "ocid" VNone) = false ->
  infrastructure_value (config b) = None ->
  run E (start b w)
  = (inl (ValueError
       "Following fields are missing but are required for OCI DataFlow Jobs: ['compartment_id', 'driver_shape', 'executor_shape', 'logs_bucket_uri', 'script_bucket']. Please run `ads opctl configure`."),
     after_auth E b (entered E b w) []).
Proof.
  intros Hocid Hstored.
  assert (Hinfra : infrastructure (config b) = None)
    by (unfold infrastructure; rewrite Hstored; reflexivity).
  assert (Hdict : holds_dict_or_nothing (config b))
    by (unfold holds_dict_or_nothing; rewrite Hinfra, Hstored; reflexivity).
  rewrite (run_validation_error b w "script_bucket" Hdict Hocid).
  - rewrite Hinfra. reflexivity.
  - apply list_elem_of_In. simpl. tauto.
  - rewrite Hinfra. reflexivity.
Qed.

(** X16: With [execution.ocid], what the service raises is what [run] raises:
    after a failed lookup nothing is submitted, and a failed submission
    is not retried. *)
Theorem run_ocid_service_errors b w (ocid : pyval) :
  execution (config b) !! "ocid" = Some ocid ->
  truthy ocid = true ->
  (forall e w1,
     from_dataflow_job E ocid (entered E b w) = (inl e, w1) ->
     run E (start b w) = (inl e, after_auth E b w1 [EJobLookup ocid]))
  /\ (forall j w1 e w2,
        from_dataflow_job E ocid (entered E b w) = (inr j, w1) ->
        job_run E j w1 = (inl e, w2) ->
        run E (start b w)
        = (inl e, after_auth E b w2 [EJobLookup ocid; EJobRun j])).
Proof.
  intros Hocid Htrue. rewrite (run_existing_outcome E b w ocid Hocid Htrue).
  unfold existing_outcome. split.
  - intros e w1 ->. reflexivity.
  - intros j w1 e w2 -> ->. reflexivity.
Qed.

End Operations.

(** ** Further closed instances *)

(** A run id that is there and is [None]. *)
Definition none_run_id_config : Config :=
  {| execution := {[ "run_id" := VNone ]}; infrastructure_value := None |}.

(** A command line with a quote left open. *)
Definition bad_command_config : Config :=
  {| execution := <["command" := VStr "--name 'a b"]> (execution example_config);
     infrastructure_value := Some (VDict required_infra) |}.

(** A source folder that is [None]. *)
Definition bad_folder_config : Config :=
  {| execution := <["source_folder" := VNone]> (execution example_config);
     infrastructure_value := Some (VDict required_infra) |}.

Lemma cancel_outcome_witness :
  (cancel Mem.env (start (Mem.backend none_run_id_config) Mem.one_app)).1
  = inl (ValueError "Can only cancel a DataFlow run.")
  /\ provider_calls
       (trace (cancel Mem.env (start (Mem.backend run_id_config) Mem.one_app)).2)
     = [ERunLookup (VStr "run-0"); @ERunDelete Mem.env "run-0"].
Proof.
  destruct (cancel_outcome Mem.env (Mem.backend none_run_id_config) Mem.one_app)
    as [Hrefused _].
  destruct (cancel_outcome Mem.env (Mem.backend run_id_config) Mem.one_app)
    as [_ Hdeleted].
  rewrite (Hrefused eq_refl), (Hdeleted eq_refl). split; reflexivity.
Defined.

Lemma delete_without_id_is_cancel_witness :
  delete Mem.env (start (Mem.backend run_id_config) Mem.one_app)
  = cancel Mem.env (start (Mem.backend run_id_config) Mem.one_app).
Proof.
  exact (delete_without_id_is_cancel Mem.env
           (start (Mem.backend run_id_config) Mem.one_app) eq_refl eq_refl).
Defined.

Lemma watch_outcome_witness :
  provider_calls
    (trace (watch Mem.env (start (Mem.backend none_run_id_config) Mem.one_app)).2)
  = [ERunLookup VNone]
  /\ provider_calls
       (trace (watch Mem.env (start (Mem.backend run_id_config) Mem.one_app)).2)
     = [ERunLookup (VStr "run-0"); @ERunWatch Mem.env "run-0"].
Proof.
  rewrite (watch_outcome Mem.env (Mem.backend none_run_id_config) Mem.one_app
             VNone eq_refl).
  rewrite (watch_outcome Mem.env (Mem.backend run_id_config) Mem.one_app
             (VStr "run-0") eq_refl).
  split; reflexivity.
Defined.

Lemma run_returns_after_create_and_submit_witness :
  truthy (dict_get (execution example_config) "ocid" VNone) = false
  /\ List.filter is_print
       (trace (run Mem.env (start (Mem.backend example_config) Mem.empty)).2)
     = [EPrint "DataFlow App ID: app-"; EPrint "DataFlow Run ID: run-i"].
Proof.
  destruct (run_returns_after_create_and_submit Mem.env
              (Mem.backend example_config) Mem.empty
              {[ "job_id" := "app-"; "run_id" := "run-i" ]} eq_refl)
    as (Hocid & _).
  split; [exact Hocid | reflexivity].
Defined.

Lemma run_provider_calls_witness :
  run_calls Mem.env
    (provider_calls
       (trace (run Mem.env (start (Mem.backend example_config) Mem.empty)).2))
  /\ run_calls Mem.env
       (provider_calls
          (trace (run Mem.env (start (Mem.backend ocid_config) Mem.empty)).2)).
Proof.
  split.
  - exact (proj1 (run_provider_calls Mem.env (Mem.backend example_config) Mem.empty)).
  - exact (proj1 (run_provider_calls Mem.env (Mem.backend ocid_config) Mem.empty)).
Defined.

Lemma example_create_event :
  EJobCreate example_job (VBool false)
  ∈ trace (run Mem.env (start (Mem.backend example_config) Mem.empty)).2.
Proof. apply list_elem_of_In. right. left. reflexivity. Qed.

Lemma run_runtime_descriptor_witness :
  rt_spec (job_runtime example_job) !! "args" = Some (VList [VStr "--x"; VStr "1"])
  /\ rt_spec (job_runtime example_job) !! "archiveUri" = None.
Proof.
  destruct (run_runtime_descriptor Mem.env (Mem.backend example_config)
              Mem.empty example_job (VBool false) example_create_event)
    as (d & _ & _ & _ & _ & Hargs & Harch & _).
  split.
  - destruct Hargs as (args & Hsplit & Hlookup). rewrite Hlookup.
    injection Hsplit as <-. reflexivity.
  - exact (proj1 Harch).
Defined.

Lemma run_infrastructure_descriptor_witness :
  df_spec (job_infrastructure example_job) !! "script_bucket" = None
  /\ infrastructure
       (config (self (run Mem.env
                        (start (Mem.backend example_config) Mem.empty)).2))
     = Some (df_spec (job_infrastructure example_job)).
Proof.
  destruct (run_infrastructure_descriptor Mem.env (Mem.backend example_config)
              Mem.empty example_job (VBool false) example_create_event)
    as (d & _ & _ & Hsb & _ & _ & _ & Hheld).
  split; [exact Hsb | exact Hheld].
Defined.

Lemma run_twice_witness :
  let first := run Mem.env (start (Mem.backend example_config) Mem.empty) in
  let second := run Mem.env (start (self first.2) (outside first.2)) in
  first.1 = inr {[ "job_id" := "app-"; "run_id" := "run-i" ]}
  /\ second.1
     = inl (ValueError
         "Following fields are missing but are required for OCI DataFlow Jobs: ['script_bucket']. Please run `ads opctl configure`.")
  /\ provider_calls (trace second.2) = [].
Proof.
  cbv zeta. split; [reflexivity|].
  destruct (run_twice Mem.env (Mem.backend example_config) Mem.empty
              {[ "job_id" := "app-"; "run_id" := "run-i" ]}
              (outside (run Mem.env
                          (start (Mem.backend example_config) Mem.empty)).2)
              eq_refl) as [Hagain Hcalls].
  rewrite Hcalls, Hagain. split; reflexivity.
Defined.

Lemma run_path_type_error_witness :
  run Mem.env (start (Mem.backend bad_folder_config) Mem.empty)
  = (inl (TypeError "expected str, bytes or os.PathLike object"),
     after_auth Mem.env (Mem.backend bad_folder_config)
       (entered Mem.env (Mem.backend bad_folder_config) Mem.empty) []).
Proof.
  exact (run_path_type_error Mem.env (Mem.backend bad_folder_config) Mem.empty
           VNone (VStr "job.py") _ eq_refl eq_refl eq_refl eq_refl eq_refl).
Defined.

Lemma run_bad_command_witness :
  (run Mem.env (start (Mem.backend bad_command_config) Mem.empty)).1
  = inl (ValueError "No closing quotation")
  /\ infra_lookup bad_command_config "script_bucket" = Some (VStr "sb")
  /\ infra_lookup
       (config (self (run Mem.env
                        (start (Mem.backend bad_command_config) Mem.empty)).2))
       "script_bucket" = None.
Proof.
  destruct (run_bad_command Mem.env (Mem.backend bad_command_config) Mem.empty
              required_infra "/a" "job.py" (VStr "--name 'a b")
              (ValueError "No closing quotation")
              eq_refl eq_refl eq_refl eq_refl eq_refl eq_refl eq_refl eq_refl)
    as (Hrun & _ & Hgone).
  split; [rewrite Hrun; reflexivity|]. split; [reflexivity | exact Hgone].
Defined.

Lemma init_reads_execution_only_witness :
  infrastructure ocid_config <> infrastructure ocid_config_with_infra
  /\ match DataFlowBackend_init Mem.env ocid_config,
           DataFlowBackend_init Mem.env ocid_config_with_infra with
     | inl e1, inl e2 => e1 = e2
     | inr b1, inr b2 =>
         config b1 = ocid_config /\ config b2 = ocid_config_with_infra
         /\ oci_auth Mem.env b1 = oci_auth Mem.env b2
         /\ client Mem.env b1 = client Mem.env b2
         /\ auth_type b1 = auth_type b2
         /\ profile b1 = profile b2
     | _, _ => False
     end.
Proof.
  split; [discriminate|].
  exact (init_reads_execution_only Mem.env ocid_config
           ocid_config_with_infra eq_refl).
Defined.

Lemma constructed_backends_ignore_infrastructure_witness :
  same_outcome Mem.env
    (run Mem.env (start (Mem.backend ocid_config) Mem.one_app))
    (run Mem.env (start (Mem.backend ocid_config_with_infra) Mem.one_app))
  /\ same_outcome Mem.env
       (delete Mem.env (start (Mem.backend ocid_config) Mem.one_app))
       (delete Mem.env (start (Mem.backend ocid_config_with_infra) Mem.one_app)).
Proof.
  destruct (constructed_backends_ignore_infrastructure Mem.env
              ocid_config ocid_config_with_infra
              (Mem.backend ocid_config) (Mem.backend ocid_config_with_infra)
              Mem.one_app eq_refl eq_refl eq_refl)
    as (_ & Hdelete & _ & Hrun).
  split; [exact (Hrun eq_refl) | exact Hdelete].
Defined.

Lemma run_without_infrastructure_witness :
  (run Mem.env (start (Mem.backend bare_config) Mem.empty)).1
  = inl (ValueError
      "Following fields are missing but are required for OCI DataFlow Jobs: ['compartment_id', 'driver_shape', 'executor_shape', 'logs_bucket_uri', 'script_bucket']. Please run `ads opctl configure`.").
Proof.
  rewrite (run_without_infrastructure Mem.env (Mem.backend bare_config)
             Mem.empty eq_refl eq_refl).
  reflexivity.
Defined.

(** Without [id] and [run_id], [cancel], [delete] and [watch] leave the
    state as they found it. *)
Lemma auth_context_scope_witness :
  let s := start (Mem.backend bare_config) Mem.one_app in
  (cancel Mem.env s).2 = s /\ (delete Mem.env s).2 = s /\ (watch Mem.env s).2 = s.
Proof.
  destruct (auth_context_scope Mem.env (Mem.backend bare_config) Mem.one_app)
    as (_ & _ & _ & _ & _ & Hcancel & Hdelete & Hwatch & _).
  cbv zeta. split; [exact (Hcancel eq_refl)|].
  split; [exact (Hdelete eq_refl eq_refl) | exact (Hwatch eq_refl)].
Defined.

(** The application asked for is not known to the service. *)
Lemma run_ocid_service_errors_witness :
  (run Mem.env (start (Mem.backend ocid_config) Mem.empty)).1
  = inl Mem.not_found
  /\ provider_calls
       (trace (run Mem.env (start (Mem.backend ocid_config) Mem.empty)).2)
     = [EJobLookup (VStr "app-0")].
Proof.
  destruct (run_ocid_service_errors Mem.env (Mem.backend ocid_config) Mem.empty
              (VStr "app-0") eq_refl eq_refl) as [Hlookup _].
  rewrite (Hlookup Mem.not_found _ eq_refl). split; reflexivity.
Defined.
